(** * Pro_scraper: the query interpreter, the extraction handler, the
    page fetcher with its cache and the script of [src/main.py], embedded
    in Rocq.

    Conventions of the embedding.
    - A Python [str] is a [string]; a character is read as the code point
      of the same number (U+0000 to U+00FF).  [str.lower], [str.strip] and
      the regular-expression class [\s] are written out on that range.
    - A Python [dict] is a [gmap]; [None] is [None] of an [option].
    - The libraries called by the handler (BeautifulSoup's [select],
      [urllib.parse.urljoin], [pandas.read_html]) are not part of the
      repository: they are variables of a section, so every theorem holds
      for all of them.  Only the exception the handler itself catches
      (around [read_html]) is modelled; an exception no [try] of the script
      catches ends the run and is outside the model. *)

From Stdlib Require Import Ascii String NArith ZArith List Bool Lia DecimalString DecimalNat.
From stdpp Require Import base option gmap strings list.

Import ListNotations.
Local Open Scope string_scope.

(** ** Characters and strings as Python sees them *)

Module PyStr.

Definition code (c : ascii) : N := N_of_ascii c.

Definition between (lo hi n : N) : bool := ((lo <=? n) && (n <=? hi))%N.

(** [str.isspace] on one character; also the class [\s] of [re]. *)
Definition is_space (c : ascii) : bool :=
  let n := code c in
  between 9 13 n || between 28 32 n || (n =? 133)%N || (n =? 160)%N.

(** One character of [str.lower]. *)
Definition lower_char (c : ascii) : ascii :=
  let n := code c in
  if between 65 90 n || (between 192 222 n && negb (n =? 215)%N)
  then ascii_of_N (n + 32) else c.

Fixpoint map_chars (f : ascii -> ascii) (s : string) : string :=
  match s with
  | EmptyString => EmptyString
  | String c t => String (f c) (map_chars f t)
  end.

Definition lower (s : string) : string := map_chars lower_char s.

Fixpoint lstrip (s : string) : string :=
  match s with
  | EmptyString => EmptyString
  | String c t => if is_space c then lstrip t else s
  end.

Fixpoint rstrip (s : string) : string :=
  match s with
  | EmptyString => EmptyString
  | String c t =>
      match rstrip t with
      | EmptyString => if is_space c then EmptyString else String c EmptyString
      | r => String c r
      end
  end.

Definition strip (s : string) : string := rstrip (lstrip s).

(** [sub in s]. *)
Fixpoint contains (sub s : string) : bool :=
  String.prefix sub s ||
  match s with
  | EmptyString => false
  | String _ t => contains sub t
  end.

(** [s.replace(a, b)] for one-character [a] and [b]. *)
Definition replace_char (a b : ascii) (s : string) : string :=
  map_chars (fun c => if Ascii.eqb c a then b else c) s.

(** Truth value of a string: non-empty. *)
Definition truthy (s : string) : bool :=
  match s with EmptyString => false | String _ _ => true end.

(** A string made of white space only (the empty string included). *)
Definition all_space (s : string) : Prop :=
  forall c, In c (list_ascii_of_string s) -> is_space c = true.

(** A string without any white space. *)
Fixpoint solid (s : string) : bool :=
  match s with
  | EmptyString => true
  | String c t => negb (is_space c) && solid t
  end.

(** [sep.join(l)]. *)
Definition join (sep : string) (l : list string) : string := String.concat sep l.

End PyStr.

(** ** The two regular expressions of [description_to_selector] *)

Module Re.
Import PyStr.

Definition squote : ascii := ascii_of_N 39.
Definition dquote : ascii := ascii_of_N 34.
Definition newline : ascii := ascii_of_N 10.

(** The class of the two quote characters (single and double). *)
Definition is_quote (c : ascii) : bool := Ascii.eqb c squote || Ascii.eqb c dquote.

(** The class [a-zA-Z0-9]. *)
Definition is_alnum (c : ascii) : bool :=
  let n := code c in between 97 122 n || between 65 90 n || between 48 57 n.

(** Longest prefix of characters satisfying [p], and what follows it. *)
Fixpoint span (p : ascii -> bool) (s : string) : string * string :=
  match s with
  | EmptyString => (EmptyString, EmptyString)
  | String c t =>
      if p c then let '(g, r) := span p t in (String c g, r)
      else (EmptyString, s)
  end.

(** [s] without the prefix [p], when it starts with it. *)
Fixpoint drop_prefix (p s : string) : option string :=
  match p, s with
  | EmptyString, _ => Some s
  | String a p', String b s' => if Ascii.eqb a b then drop_prefix p' s' else None
  | String _ _, EmptyString => None
  end.

(** One [\s], one quote, the group (one or more characters that are not
    quotes) and one quote, anchored at the head of [s]: the group.  The
    greedy group takes every character up to the next quote; a shorter one
    would be followed by a character that is not a quote. *)
Definition quoted_value (s : string) : option string :=
  match s with
  | String w (String q t) =>
      if is_space w && is_quote q then
        match span (fun c => negb (is_quote c)) t with
        | (String c g, String _ _) => Some (String c g)
        | _ => None
        end
      else None
  | _ => None
  end.

(** The literal [kw] followed by [quoted_value], anchored at the head of [s]. *)
Definition match_quoted_at (kw s : string) : option string :=
  match drop_prefix kw s with
  | Some r => quoted_value r
  | None => None
  end.

(** [re.search] of that pattern in [s]: group 1 of the leftmost match. *)
Fixpoint search_quoted (kw s : string) : option string :=
  match match_quoted_at kw s with
  | Some g => Some g
  | None =>
      match s with
      | EmptyString => None
      | String _ t => search_quoted kw t
      end
  end.

(** [re.match(r'^[a-zA-Z0-9]+$', s)] as a truth value; [$] also matches
    just before a newline that ends the string. *)
Definition match_alnum (s : string) : bool :=
  match span is_alnum s with
  | (String _ _, r) =>
      String.eqb r EmptyString || String.eqb r (String newline EmptyString)
  | _ => false
  end.

End Re.

(** ** QueryInterpreter: [description_to_selector] *)

Module Interp.
Import PyStr Re.

(** The [return] statement that produced the result. *)
Inductive Rule : Type :=
| RTable        (* line 52 *)
| RBody         (* line 61 *)
| RParagraph    (* line 63 *)
| RKeyword      (* line 69 *)
| RId           (* line 72 *)
| RClass        (* line 75 *)
| RTag          (* line 78 *)
| RNone.        (* line 80 *)

Definition keyword_map : gmap string string :=
  {[ "all links" := "a"; "all paragraphs" := "p";
     "all headings" := "h1, h2, h3";
     "all images" := "img"; "all list items" := "li" ]}.

Definition phrases : list string := ["entire data"; "all data"; "all content"].

(** Lines 65 to 80: what follows the [if]/[elif] chain, with the
    [result_type] and [query_key] it left. *)
Definition lookup_and_patterns (description result_type query_key : string)
  : Rule * (option string * string) :=
  match keyword_map !! query_key with
  | Some sel => (RKeyword, (Some sel, result_type))
  | None =>
      match search_quoted "id" description with
      | Some g => (RId, (Some ("#" ++ g), result_type))
      | None =>
          match search_quoted "class" description with
          | Some g => (RClass, (Some ("." ++ replace_char " " "." g), result_type))
          | None =>
              if negb (contains " " description) && match_alnum description
              then (RTag, (Some description, "text"))
              else (RNone, (None, result_type))
          end
      end
  end.

(** [description_to_selector], returning also the rule that fired. *)
Definition description_to_selector_rule (description : string)
  : Rule * (option string * string) :=
  let description := strip (lower description) in
  let result_type := "text" in
  let query_key := description in
  if contains "table" description then (RTable, (Some "table", "table_data"))
  else if contains "image" description then
    lookup_and_patterns description "src" "all images"
  else if contains "link" description || contains "url" description then
    lookup_and_patterns description "href" "all links"
  else if existsb (fun phrase => contains phrase description) phrases then
    (RBody, (Some "body", "text_block"))
  else if contains "all paragraph" description then
    (RParagraph, (Some "p", "text_block"))
  else lookup_and_patterns description result_type query_key.

Definition description_to_selector (description : string) : option string * string :=
  snd (description_to_selector_rule description).

Definition fired_rule (description : string) : Rule :=
  fst (description_to_selector_rule description).

Arguments lookup_and_patterns : simpl never.
Arguments description_to_selector_rule : simpl never.
Arguments description_to_selector : simpl never.
Arguments fired_rule : simpl never.

(** The rules that build a selector from the id pattern, the class pattern
    or a bare tag name. *)
Definition pattern_rule (r : Rule) : Prop := r = RId \/ r = RClass \/ r = RTag.

(** The result types [description_to_selector] can return. *)
Definition result_types : list string := ["text"; "src"; "href"; "text_block"; "table_data"].

End Interp.

(** ** What [main.py] observes of a BeautifulSoup element *)

Module Bs4.
Import PyStr.

(** A [Tag]: its attribute dictionary and the text nodes below it, in
    document order. *)
Record Tag : Type := mkTag {
  tag_name : string;
  tag_attrs : gmap string string;
  tag_strings : list string
}.

(** [el.get(key, default)]. *)
Definition get (el : Tag) (key default : string) : string :=
  match tag_attrs el !! key with
  | Some v => v
  | None => default
  end.

(** The text nodes [get_text] joins: with [strip=True] each one is
    stripped and the empty ones are left out. *)
Definition all_strings (el : Tag) (strip_each : bool) : list string :=
  if strip_each then List.filter truthy (map strip (tag_strings el))
  else tag_strings el.

(** [el.get_text(separator=..., strip=...)]. *)
Definition get_text (el : Tag) (separator : string) (strip_each : bool) : string :=
  join separator (all_strings el strip_each).

End Bs4.

(** ** Extractor: the handler of the Extract Data button *)

Module Extract.
Import PyStr Re Interp Bs4.

Inductive Message : Type :=
| st_error (text : string)
| st_warning (text : string).

(** [st.session_state]; [results_df] holds the one column [results] of the
    data frame. *)
Record SessionState (Table : Type) : Type := mkState {
  page_html : option string;
  url : option string;
  results_df : option (list string);
  results_text : option string;
  selector : option string;
  table_list : option (list Table);
  description : option string
}.

Arguments mkState {Table}.
Arguments page_html {Table}.
Arguments url {Table}.
Arguments results_df {Table}.
Arguments results_text {Table}.
Arguments selector {Table}.
Arguments table_list {Table}.
Arguments description {Table}.

Definition sep_blank_line : string := String newline (String newline EmptyString).

Definition gif_marker : string := "data:image/gif;base64".

Definition truthy_opt (o : option string) : bool :=
  match o with Some s => truthy s | None => false end.

Section Handler.

(** A table as [pandas.read_html] returns it. *)
Variable Table : Type.
(** [pd.read_html(html)]: the tables, or the message of the exception. *)
Variable read_html : string -> string + list Table.
(** [BeautifulSoup(html, 'html.parser').select(selector)], where it
    returns.  On a selector that is not valid CSS the library raises, and
    line 151 is in no [try]: that run is outside this model, and what is
    stated of a selection is stated of selectors the library accepts. *)
Variable select : string -> string -> list Tag.
(** [urljoin(st.session_state.url, content)]. *)
Variable urljoin : option string -> string -> string.

Local Abbreviation State := (SessionState Table).

Definition set_description (v : option string) (s : State) : State :=
  mkState (page_html s) (url s) (results_df s) (results_text s) (selector s) (table_list s) v.
Definition set_selector (v : option string) (s : State) : State :=
  mkState (page_html s) (url s) (results_df s) (results_text s) v (table_list s) (description s).
Definition set_table_list (v : option (list Table)) (s : State) : State :=
  mkState (page_html s) (url s) (results_df s) (results_text s) (selector s) v (description s).
Definition set_results_text (v : option string) (s : State) : State :=
  mkState (page_html s) (url s) (results_df s) v (selector s) (table_list s) (description s).
Definition set_results_df (v : option (list string)) (s : State) : State :=
  mkState (page_html s) (url s) v (results_text s) (selector s) (table_list s) (description s).

(** Line 142. *)
Definition clear_results (s : State) : State :=
  set_table_list None (set_results_text None (set_results_df None s)).

(** The three result fields. *)
Definition result_set (s : State) : option (list string) * option string * option (list Table) :=
  (results_df s, results_text s, table_list s).

(** Lines 153 and 154. *)
Definition text_block (elements : list Tag) : string :=
  let all_text := map (fun el => get_text el "" true) elements in
  join sep_blank_line (List.filter truthy all_text).

(** One turn of the loop of lines 157 to 167. *)
Definition append_item (result_type : string) (base : option string)
    (data_list : list string) (el : Tag) : list string :=
  if String.eqb result_type "src" then
    let content := get el "src" "" in
    if truthy content && negb (contains gif_marker content)
    then data_list ++ [urljoin base content] else data_list
  else if String.eqb result_type "href" then
    let content := get el "href" "" in
    if truthy content then data_list ++ [urljoin base content] else data_list
  else
    let content := get_text el " " true in
    if truthy content then data_list ++ [content] else data_list.

(** Lines 156 to 167. *)
Definition collect (result_type : string) (base : option string)
    (elements : list Tag) : list string :=
  fold_left (append_item result_type base) elements [].

(** Lines 144 to 170, for a selector and result type already computed. *)
Definition extract (html : string) (sel : option string) (result_type : string)
    (s : State) : State * list Message :=
  match sel with
  | Some css =>
      if truthy css then
        let s := set_selector sel s in
        if String.eqb result_type "table_data" then
          match read_html html with
          | inr tables => (set_table_list (Some tables) s, [])
          | inl e => (s, [st_error ("Could not parse tables. Error: " ++ e)])
          end
        else
          let elements := select html css in
          if String.eqb result_type "text_block" then
            (set_results_text (Some (text_block elements)) s, [])
          else
            (set_results_df (Some (collect result_type (url s) elements)) s, [])
      else (s, [st_error "Could not understand your description."])
  | None => (s, [st_error "Could not understand your description."])
  end.

(** One run of the script with the Extract Data button pressed and
    [input] in the description box (lines 107 to 172). *)
Definition extract_click (input : string) (s : State) : State * list Message :=
  match page_html s with
  | Some html =>
      if truthy html then
        let s := set_description (Some input) s in
        if truthy input then
          let '(sel, result_type) := description_to_selector input in
          extract html sel result_type (clear_results s)
        else (s, [st_warning "Please describe what you want to extract."])
      else (s, [])
  | None => (s, [])
  end.

End Handler.

End Extract.

(** ** PageFetcher: the scroll loop of [get_page_source] *)

Module Fetch.

(** What the loop asks of the browser. *)
Inductive Event : Type :=
| ev_scroll_to_bottom
| ev_sleep (seconds : nat)
| ev_scroll_height (h : Z).

Definition is_scroll (e : Event) : bool :=
  match e with ev_scroll_to_bottom => true | _ => false end.

Section ScrollLoop.

(** [heights k] is what the [k]-th evaluation of
    [return document.body.scrollHeight] returns, counted from 0: the
    sequence of observed heights.  A reading that raises instead ends the
    loop and the fetch; [Page.scroll_cycles_run] has that case. *)
Variable heights : nat -> Z.

(** Lines 31 to 36 over what is left of [range(5)], after [k] readings. *)
Fixpoint scroll_cycles (range : list nat) (k : nat) (last_height : Z) : list Event :=
  match range with
  | [] => []
  | _ :: range' =>
      let new_height := heights k in
      ev_scroll_to_bottom :: ev_sleep 2 :: ev_scroll_height new_height ::
      (if (new_height =? last_height)%Z then []
       else scroll_cycles range' (S k) new_height)
  end.

(** Lines 30 to 36: everything the loop does, in order. *)
Definition scroll_loop : list Event :=
  let last_height := heights 0 in
  ev_scroll_height last_height :: scroll_cycles (seq 0 5) 1 last_height.

(** Number of scroll-and-wait cycles performed. *)
Definition cycles : nat := length (List.filter is_scroll scroll_loop).

(** Number of cycles performed over what is left of the range. *)
Definition cycles_from (range : list nat) (k : nat) (last_height : Z) : nat :=
  length (List.filter is_scroll (scroll_cycles range k last_height)).

End ScrollLoop.

End Fetch.

(** ** Concrete pages, elements and states used in the examples *)

Module Samples.
Import PyStr Re Bs4 Extract.

Definition q : string := String dquote EmptyString.

(** The page of the end-to-end scenario. *)
Definition links_page : string :=
  "<body><a href=" ++ q ++ "/a" ++ q ++ ">A</a><a href=" ++ q ++ "x" ++ q ++ ">B</a></body>".

Definition anchor (href text : string) : Tag :=
  mkTag "a" {[ "href" := href ]} [text].



Definition paragraph (texts : list string) : Tag := mkTag "p" ∅ texts.




(** A page without any table. *)
Definition plain_page : string := "<html><body><p>hello</p></body></html>".

(** Tables as grids of cells, for the examples. *)
Definition Grid : Type := list (list string).

(** The session after a page was fetched from [address]. *)
Definition fetched (Table : Type) (address html : string) : SessionState Table :=
  mkState (Some html) (Some address) None None None None None.

(** The session after [all links] was extracted from [links_page]. *)
Definition after_links (Table : Type) : SessionState Table :=
  mkState (Some links_page) (Some "https://ex.com/")
    (Some ["https://ex.com/a"; "https://ex.com/x"]) None (Some "a") None (Some "all links").

(** A table parser that finds no table and raises, with the message of
    [pandas.read_html]. *)
Definition read_html_raises (Table : Type) (html : string) : string + list Table :=
  inl "No tables found".

(** A table parser that returns what it is given. *)
Definition read_html_returns {Table : Type} (tables : list Table) (html : string)
  : string + list Table := inr tables.

(** A selector engine that knows the anchors of [links_page] only. *)
Definition select_links (html css : string) : list Tag :=
  if String.eqb html links_page && String.eqb css "a"
  then [anchor "/a" "A"; anchor "x" "B"] else [].

(** Reference resolution against a base that ends its path with a slash,
    for a reference that is a path: an absolute path replaces the path of
    the base (here the base has none), a relative one is added to it. *)
Definition resolve_path (base : option string) (ref : string) : string :=
  match base with
  | None => ref
  | Some b =>
      match ref with
      | String "/" rest => b ++ rest
      | _ => b ++ ref
      end
  end.

(** A grid and a list of results written as CSV, without quoting. *)
Definition grid_csv (g : Grid) : string :=
  join (String newline EmptyString) (map (join ",") g).

Definition rows_csv (rows : list string) : string :=
  join (String newline EmptyString) ("results" :: rows).

(** Heights that grow twice and then stay. *)
Definition heights_settle (k : nat) : Z :=
  match k with
  | O => 800
  | S O => 1600
  | _ => 2400
  end%Z.

(** Heights that shrink at every reading. *)
Definition heights_shrink (k : nat) : Z := (1000 - 100 * Z.of_nat k)%Z.

End Samples.

(** ** PageFetcher: [get_page_source] with the failures of the browser
    and the cache of its decorator *)

Module Page.
Import PyStr Extract Fetch.

(** A call of [get_page_source] to Selenium or to [time]. *)
Inductive Call : Type :=
| call_launch (arguments : list string)  (* webdriver.Chrome(service, options) *)
| call_get (address : string)            (* driver.get(url) *)
| call_height                            (* return document.body.scrollHeight *)
| call_scroll                            (* window.scrollTo(0, ...scrollHeight) *)
| call_sleep (seconds : nat)             (* time.sleep(2) *)
| call_page_source                       (* driver.page_source *)
| call_quit.                             (* driver.quit() *)

(** What the browser answers: [inr] a value, [inl] the message of the
    exception it raises.  [on_height k] is the [k]-th reading of the
    scroll height, counted from 0; [on_scroll k] the scroll before it. *)
Record Browser : Type := mkBrowser {
  on_launch : string + unit;
  on_get : string -> string + unit;
  on_height : nat -> string + Z;
  on_scroll : nat -> string + unit;
  on_page_source : string + string;
  on_quit : string + unit
}.

(** A computation inside the [try]: it logs its calls and stops at the
    first exception. *)
Definition Run (A : Type) : Type := list Call -> (string + A) * list Call.

Definition ret {A : Type} (a : A) : Run A := fun log => (inr a, log).

Definition bind {A B : Type} (m : Run A) (f : A -> Run B) : Run B :=
  fun log =>
    match m log with
    | (inr a, log') => f a log'
    | (inl e, log') => (inl e, log')
    end.

Definition call {A : Type} (c : Call) (outcome : string + A) : Run A :=
  fun log => (outcome, (log ++ [c])%list).

Declare Scope run_scope.
Delimit Scope run_scope with run.
Notation "'do' x <- m ; k" := (bind m (fun x => k))
  (at level 10, x name, m at level 100, k at level 200) : run_scope.

(** Lines 20 to 24. *)
Definition chrome_arguments : list string :=
  ["--headless"; "--no-sandbox"; "--disable-dev-shm-usage"; "--disable-gpu";
   "user-agent=Mozilla/5.0 (Windows NT 10.0; Win64; x64) AppleWebKit/537.36 (KHTML, like Gecko) Chrome/91.0.4472.124 Safari/537.36"].

(** Lines 31 to 36 over what is left of [range(5)]; the next reading is
    number [k]. *)
Fixpoint scroll_cycles_run (b : Browser) (range : list nat) (k : nat) (last_height : Z)
  : Run unit :=
  match range with
  | [] => ret tt
  | _ :: range' =>
      (do _ <- call call_scroll (on_scroll b k);
       do _ <- call (call_sleep 2) (inr tt);
       do new_height <- call call_height (on_height b k);
       if (new_height =? last_height)%Z then ret tt
       else scroll_cycles_run b range' (S k) new_height)%run
  end.

(** Lines 19 to 40: the body of the [try]. *)
Definition drive (b : Browser) (address : string) : Run string :=
  (do _ <- call (call_launch chrome_arguments) (on_launch b);
   do _ <- call (call_get address) (on_get b address);
   do last_height <- call call_height (on_height b 0);
   do _ <- scroll_cycles_run b (seq 0 5) 1 last_height;
   do html <- call call_page_source (on_page_source b);
   do _ <- call call_quit (on_quit b);
   ret html)%run.

(** Lines 16 to 43, the function under the decorator: the page, the
    messages shown and the calls made, in order. *)
Definition get_page_source_uncached (b : Browser) (address : string)
  : string * list Message * list Call :=
  match drive b address [] with
  | (inr html, log) => (html, [], log)
  | (inl e, log) => ("", [st_error ("An error occurred while scraping: " ++ e)], log)
  end.

(** The store of [st.cache_data] (line 15): for an address already
    fetched, the value returned and the messages shown.  It belongs to the
    server, not to a session, and the decorator sets no expiry. *)
Abbreviation Cache := (gmap string (string * list Message)).

(** [get_page_source(url)] as the script calls it (lines 15 to 43).  On a
    hit the stored value is returned and the stored messages are shown
    again, and the browser is not touched; on a miss the function runs
    and what it returned and showed is stored.  The function catches
    every exception itself, so every call that misses stores an entry. *)
Definition get_page_source (b : Browser) (cache : Cache) (address : string)
  : (string * list Message * list Call) * Cache :=
  match cache !! address with
  | Some (html, messages) => ((html, messages, []), cache)
  | None =>
      let '(html, messages, log) := get_page_source_uncached b address in
      ((html, messages, log), <[address := (html, messages)]> cache)
  end.

(** The call behind an event of the scroll loop. *)
Definition call_of_event (e : Event) : Call :=
  match e with
  | ev_scroll_to_bottom => call_scroll
  | ev_sleep seconds => call_sleep seconds
  | ev_scroll_height _ => call_height
  end.

(** A browser that never fails, shows [html] and has the scroll heights
    [heights]. *)
Definition steady_browser (heights : nat -> Z) (html : string) : Browser :=
  mkBrowser (inr tt) (fun _ => inr tt) (fun k => inr (heights k)) (fun _ => inr tt)
    (inr html) (inr tt).

End Page.

(** ** The script: one run of [main.py] *)

Module App.
Import PyStr Re Interp Bs4 Extract Page.

(** [str(n)] for a natural number. *)
Definition str_nat (n : nat) : string := NilEmpty.string_of_uint (Nat.to_uint n).

(** A session value inside an f-string. *)
Definition py_str (o : option string) : string :=
  match o with
  | Some v => v
  | None => "None"
  end.

(** What a run puts on the page, in the order of the script.  A widget
    keeps its text, its data and its key; layout, icons, placeholders and
    heights are left out. *)
Inductive Output (Table : Type) : Type :=
| st_title (text : string)
| st_markdown (text : string)
| st_header (text : string)
| st_subheader (text : string)
| st_text_input (label : string) (key : option string)
| st_button (label : string)
| st_message (m : Message)
| st_success (text : string)
| st_code (text : string)
| st_info (text : string)
| st_dataframe_table (table : Table)
| st_dataframe (rows : list string)
| st_download_button (label data file_name : string) (mime key : option string)
| st_text_area (label value : string).

Arguments st_title {Table}.
Arguments st_markdown {Table}.
Arguments st_header {Table}.
Arguments st_subheader {Table}.
Arguments st_text_input {Table}.
Arguments st_button {Table}.
Arguments st_message {Table}.
Arguments st_success {Table}.
Arguments st_code {Table}.
Arguments st_info {Table}.
Arguments st_dataframe_table {Table}.
Arguments st_dataframe {Table}.
Arguments st_download_button {Table}.
Arguments st_text_area {Table}.

(** What the user does before a run: the two text boxes and the two
    buttons. *)
Record Inputs : Type := mkInputs {
  url_input : string;
  scrape_pressed : bool;
  description_input : string;
  extract_pressed : bool
}.

(** Lines 120 to 127. *)
Definition suggestions : string :=
  join (String newline EmptyString)
    [""; "        - `all links`"; "        - `all headings`"; "        - `all images`";
     "        - `all paragraphs`"; "        - `the table`"; "        - `entire data`";
     "        "].

Definition is_download {Table : Type} (o : Output Table) : bool :=
  match o with st_download_button _ _ _ _ _ => true | _ => false end.

(** The key the script gives to a widget, when it gives one. *)
Definition widget_key {Table : Type} (o : Output Table) : option string :=
  match o with
  | st_download_button _ _ _ _ key => key
  | st_text_input _ key => key
  | _ => None
  end.

(** The file a download button offers. *)
Definition download_file {Table : Type} (o : Output Table) : option string :=
  match o with st_download_button _ _ file_name _ _ => Some file_name | _ => None end.

Section Script.

Variable Table : Type.
Variable read_html : string -> string + list Table.
Variable select : string -> string -> list Tag.
Variable urljoin : option string -> string -> string.
(** [table_df.to_csv(index=False).encode('utf-8')]. *)
Variable table_csv : Table -> string.
(** The same for the data frame with the one column [results]. *)
Variable results_csv : list string -> string.

Local Abbreviation State := (SessionState Table).
Local Abbreviation Out := (Output Table).

(** Lines 86 to 88 on the first run: every key is [None]. *)
Definition initial_state : State := mkState None None None None None None None.

(** Lines 100 to 105: the Scrape Website button, with what
    [get_page_source] did and the cache it leaves. *)
Definition scrape_click (b : Browser) (cache : Cache) (address : string) (s : State)
  : (State * list Message) * Cache :=
  if truthy address then
    let '(html, messages, _, cache') := get_page_source b cache address in
    ((mkState (Some html) (Some address) None None (selector s) None None, messages),
     cache')
  else ((s, [st_warning "Please enter a URL."]), cache).

(** Lines 181 to 185, from table number [i]. *)
Fixpoint render_tables (i : nat) (tables : list Table) : list Out :=
  match tables with
  | [] => []
  | table_df :: rest =>
      st_subheader ("Table " ++ str_nat (i + 1)) ::
      st_dataframe_table table_df ::
      st_download_button ("📥 Download Table " ++ str_nat (i + 1) ++ " as CSV")
        (table_csv table_df) ("table_" ++ str_nat (i + 1) ++ ".csv")
        (Some "text/csv") (Some ("download_table_" ++ str_nat i)) ::
      render_tables (S i) rest
  end.

(** Lines 174 to 198: the Results part of the page. *)
Definition render_results (s : State) : list Out :=
  match results_df s, results_text s, table_list s with
  | None, None, None => []
  | _, _, _ =>
      st_markdown "---" ::
      st_header "📊 Results" ::
      st_info ("Query: `" ++ py_str (description s) ++ "` | Method: `" ++
               py_str (selector s) ++ "`") ::
      match table_list s with
      | Some (table_df :: rest) =>
          st_markdown ("**Found " ++ str_nat (length (table_df :: rest)) ++ " table(s).**") ::
          render_tables 0 (table_df :: rest)
      | _ =>
          match results_text s with
          | Some text =>
              [st_text_area "Extracted Text" text;
               st_download_button "📥 Download as TXT" text "scraped_text.txt" None None]
          | None =>
              match results_df s with
              | Some [] => [st_message (st_warning "Found 0 items matching your query after filtering.")]
              | Some rows =>
                  [st_markdown ("**Found " ++ str_nat (length rows) ++ " items.**");
                   st_dataframe rows;
                   st_download_button "📥 Download as CSV" (results_csv rows)
                     "scraped_results.csv" (Some "text/csv") None]
              | None => []
              end
          end
      end
  end.

(** Lines 90 to 99: the top of the page, down to the Scrape button. *)
Definition page_top : list Out :=
  [st_title "👑 QuantWeb Pro Scraper";
   st_markdown "Extract any data, including tables, from websites.";
   st_markdown "---";
   st_header "⚙️ Configuration";
   st_text_input "Enter the Website URL to Scrape:" None;
   st_button "Scrape Website"].

(** Lines 108 to 138: the form shown once a page is there, down to the
    Extract button. *)
Definition extract_form (s : State) : list Out :=
  [st_success ("Successfully scraped **" ++ py_str (url s) ++ "**");
   st_code (py_str (page_html s));
   st_header "🔎 Specify and Extract Data";
   st_info "**To scrape effectively, use simple phrases like the ones below:**";
   st_markdown suggestions;
   st_text_input "Describe what to extract:" (Some "description_input");
   st_button "Extract Data"].

(** One run of the script, from line 84 to line 198: the session and
    the page it leaves, and the cache. *)
Definition run_script (b : Browser) (inp : Inputs) (cache : Cache) (s : State)
  : (State * list Out) * Cache :=
  let '(s1, scrape_messages, cache') :=
    if scrape_pressed inp then scrape_click b cache (url_input inp) s
    else ((s, []), cache) in
  let '(s2, form) :=
    if truthy_opt (page_html s1) then
      if extract_pressed inp then
        let '(s2, messages) :=
          extract_click Table read_html select urljoin (description_input inp) s1 in
        (s2, (extract_form s1 ++ map st_message messages)%list)
      else (set_description Table (Some (description_input inp)) s1, extract_form s1)
    else (s1, []) in
  ((s2, (page_top ++ map st_message scrape_messages ++ form ++ render_results s2)%list),
   cache').

End Script.

End App.

(** ** Vocabulary of the further properties *)

Module Vocabulary.
Import PyStr Re Interp Bs4 Extract Page App.

(** The normal form line 47 computes. *)
Definition normal (description : string) : string := strip (lower description).

(** No quote character anywhere. *)
Fixpoint quote_free (s : string) : bool :=
  match s with
  | EmptyString => true
  | String c t => negb (is_quote c) && quote_free t
  end.

(** Lower-case letters and digits only. *)
Fixpoint lower_alnum (s : string) : bool :=
  match s with
  | EmptyString => true
  | String c t => (between 97 122 (code c) || between 48 57 (code c)) && lower_alnum t
  end.

(** [s] holds [kw], one white-space character, a quote, [g] and a quote,
    one after the other. *)
Definition quoted_occurrence (kw g s : string) : Prop :=
  exists pre w q1 q2 post,
    s = pre ++ kw ++ String w (String q1 (g ++ String q2 post)) /\
    is_space w = true /\ is_quote q1 = true /\ is_quote q2 = true.

(** How many of the three result fields hold a value. *)
Definition is_set {A : Type} (o : option A) : nat :=
  match o with Some _ => 1 | None => 0 end.

Definition populated {Table : Type} (s : SessionState Table) : nat :=
  is_set (results_df s) + is_set (results_text s) + is_set (table_list s).

(** The download buttons of a page. *)
Definition downloads {Table : Type} (page : list (Output Table)) : list (Output Table) :=
  List.filter is_download page.

(** The keys the script gives to the widgets of a page, and the files its
    download buttons offer, in order. *)
Definition keys {Table : Type} (page : list (Output Table)) : list string :=
  omap widget_key page.

Definition files {Table : Type} (page : list (Output Table)) : list string :=
  omap download_file page.

(** The line under the Results header (line 177). *)
Definition query_line (description selector : option string) : string :=
  "Query: `" ++ py_str description ++ "` | Method: `" ++ py_str selector ++ "`".

(** A cache that calls of [get_page_source] have filled: every entry
    is a page shown with no message, or the empty page with the one error
    of line 42. *)
Definition sound (cache : Cache) : Prop :=
  forall a html messages, cache !! a = Some (html, messages) ->
    messages = [] \/
    (html = "" /\
     exists e, messages = [st_error ("An error occurred while scraping: " ++ e)]).

(** The calls the scroll loop makes. *)
Definition is_loop_call (c : Call) : bool :=
  match c with
  | call_scroll | call_sleep _ | call_height => true
  | _ => false
  end.

Definition is_scroll_call (c : Call) : bool :=
  match c with call_scroll => true | _ => false end.

(** A browser whose first failing call is the [launch]. *)
Definition no_chrome (message : string) : Browser :=
  mkBrowser (inl message) (fun _ => inr tt) (fun _ => inr 0%Z) (fun _ => inr tt)
    (inr "") (inr tt).

(** A browser that loads the page and fails when asked for its source. *)
Definition crashing_browser (message : string) : Browser :=
  mkBrowser (inr tt) (fun _ => inr tt) (fun _ => inr 900%Z) (fun _ => inr tt)
    (inl message) (inr tt).

End Vocabulary.

(** * Properties *)

Import PyStr Re Interp Bs4 Extract Fetch Samples Page App Vocabulary.

(** ** The interpreter on the phrases of the interface *)

Example interp_links : description_to_selector "all links" = (Some "a", "href").
Proof. vm_compute. reflexivity. Qed.

Example interp_images : description_to_selector "Please get all the IMAGE tags" = (Some "img", "src").
Proof. vm_compute. reflexivity. Qed.

Example interp_class : description_to_selector "class 'price tag'" = (Some ".price.tag", "text").
Proof. vm_compute. reflexivity. Qed.

Example interp_id : description_to_selector "Get ID 'main' now" = (Some "#main", "text").
Proof. vm_compute. reflexivity. Qed.

Example interp_tag : description_to_selector "  XYZ123 " = (Some "xyz123", "text").
Proof. vm_compute. reflexivity. Qed.

Example interp_unknown : description_to_selector "???" = (None, "text").
Proof. vm_compute. reflexivity. Qed.

Example interp_body : description_to_selector "entire data" = (Some "body", "text_block").
Proof. vm_compute. reflexivity. Qed.

(** ** Lemmas on strings *)

Lemma lower_char_space c : is_space c = true -> lower_char c = c.
Proof.
  destruct c as [[] [] [] [] [] [] [] []]; vm_compute; intros H;
    try reflexivity; discriminate H.
Qed.

Lemma all_space_cons c s : all_space (String c s) -> is_space c = true /\ all_space s.
Proof.
  intros H. split.
  - apply H. simpl. now left.
  - intros x Hx. apply H. simpl. now right.
Qed.

Lemma lower_all_space s : all_space s -> lower s = s.
Proof.
  induction s as [|c s IH]; intros H; [reflexivity|].
  apply all_space_cons in H as [Hc Hs]. unfold lower in *. simpl.
  rewrite (lower_char_space c Hc), (IH Hs). reflexivity.
Qed.

Lemma lstrip_all_space s : all_space s -> lstrip s = EmptyString.
Proof.
  induction s as [|c s IH]; intros H; [reflexivity|].
  apply all_space_cons in H as [Hc Hs]. simpl. rewrite Hc. now apply IH.
Qed.

Lemma strip_lower_all_space s : all_space s -> strip (lower s) = EmptyString.
Proof.
  intros H. rewrite (lower_all_space s H). unfold strip.
  rewrite (lstrip_all_space s H). reflexivity.
Qed.

(** A needle that is in lower case and holds no white space survives
    [lower] and [strip]. *)

Lemma prefix_cons a p b s :
  String.prefix (String a p) (String b s) = true <-> a = b /\ String.prefix p s = true.
Proof.
  simpl. destruct (ascii_dec a b) as [E|N]; split.
  - intros H. split; [exact E|exact H].
  - intros [_ H]. exact H.
  - intros H. discriminate H.
  - intros [E _]. contradiction.
Qed.

Lemma prefix_lower p : forall s,
  String.prefix p s = true -> String.prefix (lower p) (lower s) = true.
Proof.
  induction p as [|a p IH]; intros s H; [destruct s; reflexivity|].
  destruct s as [|b s]; [discriminate H|].
  apply prefix_cons in H as [-> H]. unfold lower. cbn [map_chars].
  apply prefix_cons. split; [reflexivity|]. now apply IH.
Qed.

Lemma contains_cons sub a s :
  contains sub (String a s) = String.prefix sub (String a s) || contains sub s.
Proof. reflexivity. Qed.

Lemma contains_lower sub s :
  lower sub = sub -> contains sub s = true -> contains sub (lower s) = true.
Proof.
  intros Hs. induction s as [|a s IH]; intros H.
  - destruct sub; [reflexivity|discriminate H].
  - rewrite contains_cons in H. apply orb_true_iff in H as [H|H].
    + apply prefix_lower in H. rewrite Hs in H.
      change (lower (String a s)) with (String (lower_char a) (lower s)) in *.
      rewrite contains_cons, H. reflexivity.
    + change (lower (String a s)) with (String (lower_char a) (lower s)).
      rewrite contains_cons, (IH H). apply orb_true_r.
Qed.

Lemma contains_lstrip c sub s :
  is_space c = false -> contains (String c sub) s = true ->
  contains (String c sub) (lstrip s) = true.
Proof.
  intros Hc. induction s as [|a s IH]; intros H; [exact H|].
  cbn [lstrip]. destruct (is_space a) eqn:Ha; [|exact H].
  rewrite contains_cons in H. apply orb_true_iff in H as [H|H]; [|now apply IH].
  apply prefix_cons in H as [-> _]. congruence.
Qed.

Lemma rstrip_cons a s :
  rstrip s <> "" -> rstrip (String a s) = String a (rstrip s).
Proof. cbn [rstrip]. destruct (rstrip s); [intros H; now contradiction H|reflexivity]. Qed.

Lemma prefix_rstrip sub : forall c s,
  solid (String c sub) = true -> String.prefix (String c sub) s = true ->
  String.prefix (String c sub) (rstrip s) = true.
Proof.
  induction sub as [|b sub IH]; intros c s Hsolid H;
    destruct s as [|a s]; try discriminate H;
    apply prefix_cons in H as [<- H];
    cbn [solid] in Hsolid; apply andb_true_iff in Hsolid as [Hc Hsolid];
    apply negb_true_iff in Hc.
  - cbn [rstrip]. rewrite Hc. destruct (rstrip s); apply prefix_cons; split; reflexivity.
  - specialize (IH b s Hsolid H).
    rewrite rstrip_cons.
    + apply prefix_cons. split; [reflexivity|exact IH].
    + intros E. rewrite E in IH. discriminate IH.
Qed.

Lemma contains_rstrip c sub s :
  solid (String c sub) = true -> contains (String c sub) s = true ->
  contains (String c sub) (rstrip s) = true.
Proof.
  intros Hsolid. induction s as [|a s IH]; intros H; [discriminate H|].
  rewrite contains_cons in H. apply orb_true_iff in H as [H|H].
  - apply (prefix_rstrip sub c _ Hsolid) in H.
    destruct (rstrip (String a s)); [discriminate H|].
    rewrite contains_cons, H. reflexivity.
  - specialize (IH H). rewrite rstrip_cons.
    + rewrite contains_cons, IH. apply orb_true_r.
    + intros E. rewrite E in IH. discriminate IH.
Qed.

Lemma contains_normal c sub d :
  solid (String c sub) = true -> lower (String c sub) = String c sub ->
  contains (String c sub) d = true ->
  contains (String c sub) (strip (lower d)) = true.
Proof.
  intros Hsolid Hlow H. unfold strip.
  apply (contains_rstrip c sub _ Hsolid). apply contains_lstrip.
  - cbn [solid] in Hsolid. apply andb_true_iff in Hsolid as [Hc _].
    now apply negb_true_iff in Hc.
  - now apply contains_lower.
Qed.

(** ** Lemmas on the rules *)

Lemma keyword_images : keyword_map !! "all images" = Some "img".
Proof. vm_compute. reflexivity. Qed.

Lemma keyword_links : keyword_map !! "all links" = Some "a".
Proof. vm_compute. reflexivity. Qed.

Lemma lookup_images d : lookup_and_patterns d "src" "all images" = (RKeyword, (Some "img", "src")).
Proof. unfold lookup_and_patterns. rewrite keyword_images. reflexivity. Qed.

Lemma lookup_links d : lookup_and_patterns d "href" "all links" = (RKeyword, (Some "a", "href")).
Proof. unfold lookup_and_patterns. rewrite keyword_links. reflexivity. Qed.

(** After the chain left the defaults, every outcome has result type [text]. *)
Lemma lookup_default_text d : snd (snd (lookup_and_patterns d "text" d)) = "text".
Proof.
  unfold lookup_and_patterns.
  destruct (keyword_map !! d); [reflexivity|].
  destruct (search_quoted "id" d); [reflexivity|].
  destruct (search_quoted "class" d); [reflexivity|].
  destruct (negb (contains " " d) && match_alnum d); reflexivity.
Qed.

(** The five outcomes of the [if]/[elif] chain. *)
Lemma rule_cases d :
  let n := strip (lower d) in
  (contains "table" n = true /\
     description_to_selector_rule d = (RTable, (Some "table", "table_data"))) \/
  (contains "table" n = false /\ contains "image" n = true /\
     description_to_selector_rule d = (RKeyword, (Some "img", "src"))) \/
  (contains "table" n = false /\ contains "image" n = false /\
     contains "link" n || contains "url" n = true /\
     description_to_selector_rule d = (RKeyword, (Some "a", "href"))) \/
  (contains "table" n = false /\ contains "image" n = false /\
     contains "link" n || contains "url" n = false /\
     (description_to_selector_rule d = (RBody, (Some "body", "text_block")) \/
      description_to_selector_rule d = (RParagraph, (Some "p", "text_block")) \/
      description_to_selector_rule d = lookup_and_patterns n "text" n)).
Proof.
  intros n. unfold description_to_selector_rule. fold n.
  destruct (contains "table" n) eqn:Ht; [left; auto|right].
  destruct (contains "image" n) eqn:Hi.
  { left. rewrite lookup_images. auto. }
  right.
  destruct (contains "link" n || contains "url" n) eqn:Hl.
  { left. rewrite lookup_links. auto. }
  right. repeat split; try reflexivity.
  destruct (existsb _ phrases); [left; reflexivity|right].
  destruct (contains "all paragraph" n); [left; reflexivity|right; reflexivity].
Qed.

(** Every result, by result type: the fixed pairs of the early returns and
    of the rewritten phrases, or a result of type [text]. *)
Lemma selector_cases d :
  (fired_rule d = RTable /\ description_to_selector d = (Some "table", "table_data")) \/
  (fired_rule d = RKeyword /\ description_to_selector d = (Some "img", "src")) \/
  (fired_rule d = RKeyword /\ description_to_selector d = (Some "a", "href")) \/
  (fired_rule d = RBody /\ description_to_selector d = (Some "body", "text_block")) \/
  (fired_rule d = RParagraph /\ description_to_selector d = (Some "p", "text_block")) \/
  (exists sel, description_to_selector d = (sel, "text")).
Proof.
  unfold description_to_selector, fired_rule.
  pose proof (lookup_default_text (strip (lower d))) as Hd.
  destruct (rule_cases d) as [[_ E]|[(_ & _ & E)|[(_ & _ & _ & E)|(_ & _ & _ & [E|[E|E]])]]];
    rewrite E.
  - left. split; reflexivity.
  - right; left. split; reflexivity.
  - do 2 right; left. split; reflexivity.
  - do 3 right; left. split; reflexivity.
  - do 4 right; left. split; reflexivity.
  - do 5 right. destruct (lookup_and_patterns _ _ _) as [r [sel rt]].
    simpl in Hd. subst rt. exists sel. reflexivity.
Qed.

Lemma match_alnum_truthy s : match_alnum s = true -> truthy s = true.
Proof. destruct s; [intros H; discriminate H|reflexivity]. Qed.

(** A selector [description_to_selector] returns is never the empty string. *)
Lemma selector_truthy d css rt :
  description_to_selector d = (Some css, rt) -> truthy css = true.
Proof.
  unfold description_to_selector.
  destruct (rule_cases d) as [[_ E]|[(_ & _ & E)|[(_ & _ & _ & E)|(_ & _ & _ & [E|[E|E]])]]];
    rewrite E; simpl; intros H; try (inversion H; reflexivity).
  revert H. unfold lookup_and_patterns.
  remember (strip (lower d)) as n eqn:Hn. clear Hn E.
  destruct (keyword_map !! n) as [v|] eqn:Hk.
  - simpl. intros H. inversion H. subst.
    unfold keyword_map in Hk.
    repeat (apply lookup_insert_Some in Hk as [[_ <-]|[_ Hk]]; [reflexivity|]).
    apply lookup_singleton_Some in Hk as [_ <-]. reflexivity.
  - destruct (search_quoted "id" n); [simpl; intros H; inversion H; reflexivity|].
    destruct (search_quoted "class" n); [simpl; intros H; inversion H; reflexivity|].
    destruct (negb (contains " " n) && match_alnum n) eqn:Ha; simpl; intros H; inversion H.
    subst. apply match_alnum_truthy. apply andb_true_iff in Ha. tauto.
Qed.

(** ** QueryInterpreter *)

(** C1: whenever the lowercased and trimmed description contains the
    substring [table], [description_to_selector] returns the selector
    [table] with result type [table_data], whatever else the description
    holds, and it is the first [return] (line 52) that produced it. *)
Theorem C1_table_short_circuits (d : string) :
  contains "table" (strip (lower d)) = true ->
  description_to_selector d = (Some "table", "table_data") /\ fired_rule d = RTable.
Proof.
  intros H. unfold description_to_selector, fired_rule, description_to_selector_rule.
  rewrite H. split; reflexivity.
Qed.

Lemma C1_table_short_circuits_witness :
  description_to_selector "  All IMAGE links in class 'x' of the data TABLES " = (Some "table", "table_data") /\
  fired_rule "  All IMAGE links in class 'x' of the data TABLES " = RTable.
Proof.
  apply (C1_table_short_circuits "  All IMAGE links in class 'x' of the data TABLES ").
  vm_compute. reflexivity.
Defined.

(** The three needles of the rewriting branches survive normalisation. *)
Lemma needle_normal d :
  contains "image" d || contains "link" d || contains "url" d = true ->
  contains "image" (strip (lower d)) || contains "link" (strip (lower d))
    || contains "url" (strip (lower d)) = true.
Proof.
  intros H. apply orb_true_iff in H as [H|H]; [apply orb_true_iff in H as [H|H]|].
  - rewrite (contains_normal "i"%char "mage" d eq_refl eq_refl H). reflexivity.
  - rewrite (contains_normal "l"%char "ink" d eq_refl eq_refl H).
    apply orb_true_iff. left. apply orb_true_r.
  - rewrite (contains_normal "u"%char "rl" d eq_refl eq_refl H). apply orb_true_r.
Qed.

(** C9: a result of type [src] always carries the selector [img] and a
    result of type [href] the selector [a]; the id, class and tag-name
    rules only ever return the result type [text]; a description whose
    normal form contains [image], [link] or [url] but not [table] is
    answered by the phrase table, never by those three rules; and so is a
    description that contains one of the three words as typed, unless the
    table rule takes it first. *)
Theorem C9_shape_invariant :
  (forall d sel, description_to_selector d = (sel, "src") -> sel = Some "img") /\
  (forall d sel, description_to_selector d = (sel, "href") -> sel = Some "a") /\
  (forall d, pattern_rule (fired_rule d) -> snd (description_to_selector d) = "text") /\
  (forall d, contains "table" (strip (lower d)) = false ->
             contains "image" (strip (lower d)) || contains "link" (strip (lower d))
               || contains "url" (strip (lower d)) = true ->
             fired_rule d = RKeyword /\ ~ pattern_rule (fired_rule d)) /\
  (forall d, contains "image" d || contains "link" d || contains "url" d = true ->
             (fired_rule d = RTable \/ fired_rule d = RKeyword) /\
             ~ pattern_rule (fired_rule d)).
Proof.
  assert (Hnorm : forall d,
             contains "image" (strip (lower d)) || contains "link" (strip (lower d))
               || contains "url" (strip (lower d)) = true ->
             fired_rule d = RTable \/ fired_rule d = RKeyword).
  { intros d Hk. unfold fired_rule.
    destruct (rule_cases d) as [[_ E]|[(_ & _ & E)|[(_ & _ & _ & E)|(_ & Hi & Hl & _)]]].
    - left. now rewrite E.
    - right. now rewrite E.
    - right. now rewrite E.
    - rewrite Hi in Hk. simpl in Hk. congruence. }
  split; [|split; [|split; [|split]]].
  - intros d sel H.
    destruct (selector_cases d) as [[_ E]|[[_ E]|[[_ E]|[[_ E]|[[_ E]|[sel' E]]]]]];
      rewrite E in H; inversion H; reflexivity.
  - intros d sel H.
    destruct (selector_cases d) as [[_ E]|[[_ E]|[[_ E]|[[_ E]|[[_ E]|[sel' E]]]]]];
      rewrite E in H; inversion H; reflexivity.
  - intros d H.
    destruct (selector_cases d) as [[R E]|[[R E]|[[R E]|[[R E]|[[R E]|[sel' E]]]]]];
      rewrite E; try reflexivity;
      rewrite R in H; destruct H as [H|[H|H]]; discriminate H.
  - intros d Ht Hk.
    assert (E : fired_rule d = RKeyword).
    { unfold fired_rule.
      destruct (rule_cases d) as [[C _]|[(_ & _ & E)|[(_ & _ & _ & E)|(_ & Hi & Hl & _)]]].
      - congruence.
      - now rewrite E.
      - now rewrite E.
      - rewrite Hi in Hk. simpl in Hk. congruence. }
    split; [exact E|]. rewrite E. intros [H|[H|H]]; discriminate H.
  - intros d Hraw. pose proof (Hnorm d (needle_normal d Hraw)) as H.
    split; [exact H|].
    destruct H as [E|E]; rewrite E; intros [H|[H|H]]; discriminate H.
Qed.

Lemma C9_shape_invariant_witness :
  fired_rule "the URL with id 'main'" = RKeyword /\
  ~ pattern_rule (fired_rule "the URL with id 'main'").
Proof.
  apply (proj1 (proj2 (proj2 (proj2 C9_shape_invariant))) "the URL with id 'main'");
    vm_compute; reflexivity.
Defined.

(** C10: [description_to_selector] is total: every string has a result, a
    pair of an optional selector and one of the five result types; and a
    description that is empty or made of white space only gets
    [(None, text)], the answer for a description that is not understood. *)
Theorem C10_total_and_blank :
  (forall d, exists sel rt, description_to_selector d = (sel, rt) /\ In rt result_types) /\
  (forall d, all_space d -> description_to_selector d = (None, "text") /\ fired_rule d = RNone).
Proof.
  split.
  - intros d.
    destruct (selector_cases d) as [[_ E]|[[_ E]|[[_ E]|[[_ E]|[[_ E]|[sel' E]]]]]];
      rewrite E; eexists _, _; (split; [reflexivity|]); simpl; auto 6.
  - intros d H. unfold description_to_selector, fired_rule, description_to_selector_rule.
    rewrite (strip_lower_all_space d H). split; vm_compute; reflexivity.
Qed.

Lemma C10_total_and_blank_witness :
  description_to_selector "   " = (None, "text") /\ fired_rule "   " = RNone.
Proof.
  apply (proj2 C10_total_and_blank "   ").
  intros c Hc. simpl in Hc.
  destruct Hc as [<-|[<-|[<-|[]]]]; reflexivity.
Defined.

(** ** Extractor *)

(** *** Joined strings *)

Lemma append_empty_r (s : string) : s ++ "" = s.
Proof.
  induction s as [|c s IH]; [reflexivity|].
  change (String c (s ++ "") = String c s). now rewrite IH.
Qed.

Lemma truthy_true_iff (s : string) : truthy s = true <-> s <> "".
Proof. destruct s; simpl; split; intros H; congruence. Qed.

Lemma truthy_false_iff (s : string) : truthy s = false <-> s = "".
Proof. destruct s; simpl; split; intros H; congruence. Qed.

Lemma truthy_append (s t : string) : truthy s = true -> truthy (s ++ t) = true.
Proof. destruct s; simpl; [intros H; discriminate H|reflexivity]. Qed.

(** [join] puts the separator before every segment but the first. *)
Lemma join_cons sep t (l : list string) :
  join sep (t :: l) = t ++ (match l with [] => "" | _ :: _ => sep ++ join sep l end).
Proof.
  unfold join. destruct l as [|x l]; simpl; [now rewrite append_empty_r|reflexivity].
Qed.

(** A join of segments that are all populated is empty only when there is
    no segment. *)
Lemma join_truthy sep (l : list string) :
  Forall (fun seg => truthy seg = true) l ->
  truthy (join sep l) = match l with [] => false | _ :: _ => true end.
Proof.
  intros H. destruct l as [|x l]; [reflexivity|].
  rewrite join_cons. apply truthy_append. now inversion H.
Qed.

Lemma filter_truthy_all (l : list string) :
  Forall (fun seg => truthy seg = true) (List.filter truthy l).
Proof.
  apply List.Forall_forall. intros x Hx. apply List.filter_In in Hx. tauto.
Qed.

(** *** The text block *)

Lemma text_block_cons_empty el els :
  get_text el "" true = "" -> text_block (el :: els) = text_block els.
Proof.
  intros H. unfold text_block. simpl. simpl in H. rewrite H. reflexivity.
Qed.

Lemma text_block_cons_populated el els :
  get_text el "" true <> "" ->
  text_block (el :: els) =
    get_text el "" true ++ (if truthy (text_block els) then sep_blank_line ++ text_block els else "").
Proof.
  intros H. apply truthy_true_iff in H. unfold text_block. simpl. simpl in H. rewrite H.
  rewrite join_cons, (join_truthy _ _ (filter_truthy_all _)).
  destruct (List.filter truthy _); reflexivity.
Qed.

(** C6: the text block is the join, with a blank line as separator, of the
    texts of the selected nodes that are not empty, in document order; no
    joined segment is empty; a node with an empty text changes nothing,
    wherever it stands; a populated node contributes its text, followed by
    the separator only when a populated segment follows; and the block is
    empty exactly when every node is. *)
Theorem C6_text_block_segments (elements : list Tag) :
  text_block elements =
    join sep_blank_line (List.filter truthy (map (fun el => get_text el "" true) elements)) /\
  Forall (fun seg => seg <> "") (List.filter truthy (map (fun el => get_text el "" true) elements)) /\
  (forall before el after, get_text el "" true = "" ->
     text_block (before ++ el :: after) = text_block (before ++ after)) /\
  (forall el els, get_text el "" true <> "" ->
     text_block (el :: els) =
       get_text el "" true ++
       (if truthy (text_block els) then sep_blank_line ++ text_block els else "")) /\
  (text_block elements = "" <-> forall el, In el elements -> get_text el "" true = "").
Proof.
  split; [reflexivity|]. split; [|split; [|split]].
  - apply List.Forall_forall. intros x Hx. apply List.filter_In in Hx.
    apply truthy_true_iff. tauto.
  - intros before el after H. unfold text_block.
    rewrite !map_app, !List.filter_app. simpl. simpl in H. rewrite H. reflexivity.
  - exact text_block_cons_populated.
  - induction elements as [|el els IH]; [simpl; tauto|].
    destruct (truthy (get_text el "" true)) eqn:Hel.
    + split.
      * intros H. apply truthy_true_iff in Hel.
        rewrite (text_block_cons_populated el els Hel) in H.
        apply truthy_true_iff in Hel. apply (truthy_append _ (if truthy (text_block els)
          then sep_blank_line ++ text_block els else "")) in Hel.
        rewrite H in Hel. discriminate Hel.
      * intros H. specialize (H el (or_introl eq_refl)). simpl in H, Hel.
        rewrite H in Hel. discriminate Hel.
    + apply truthy_false_iff in Hel. rewrite (text_block_cons_empty el els Hel), IH.
      split.
      * intros H x [<-|Hx]; [exact Hel|now apply H].
      * intros H x Hx. apply H. now right.
Qed.

(** Unfolds the handler down to records. *)
Ltac unfold_state :=
  unfold extract, clear_results, set_selector, set_table_list, set_results_text,
    set_results_df, set_description, result_set;
  cbn [page_html url results_df results_text selector table_list description fst snd].

Section ExtractorProperties.

Variable Table : Type.
Variable read_html : string -> string + list Table.
Variable select : string -> string -> list Tag.
Variable urljoin : option string -> string -> string.

Local Abbreviation State := (SessionState Table).
Local Abbreviation run_extract := (extract Table read_html select urljoin).
Local Abbreviation run_click := (extract_click Table read_html select urljoin).
Local Abbreviation run_collect := (collect urljoin).

(** *** The handler, case by case *)

(** Line 142 and line 132 on a state written out. *)
Lemma clear_results_eq p u r t sl tl ds d :
  clear_results Table (set_description Table (Some d) (mkState p u r t sl tl ds)) =
  mkState p u None None sl None (Some d).
Proof. reflexivity. Qed.

(** [extract] on a state written out. *)
Lemma extract_eq html css rt p u r t sl tl ds :
  run_extract html (Some css) rt (mkState p u r t sl tl ds) =
    if truthy css then
      if String.eqb rt "table_data" then
        match read_html html with
        | inr tables => (mkState p u r t (Some css) (Some tables) ds, [])
        | inl e =>
            (mkState p u r t (Some css) tl ds,
             [st_error ("Could not parse tables. Error: " ++ e)])
        end
      else if String.eqb rt "text_block" then
        (mkState p u r (Some (text_block (select html css))) (Some css) tl ds, [])
      else
        (mkState p u (Some (collect urljoin rt u (select html css))) t (Some css) tl ds, [])
    else (mkState p u r t sl tl ds, [st_error "Could not understand your description."]).
Proof.
  unfold extract. destruct (truthy css); [|reflexivity].
  destruct (String.eqb rt "table_data"); [destruct (read_html html); reflexivity|].
  destruct (String.eqb rt "text_block"); reflexivity.
Qed.

(** [extract] keeps the page. *)
Lemma extract_keeps_page html sel rt (s : SessionState Table) :
  page_html (fst (run_extract html sel rt s)) = page_html s.
Proof.
  unfold extract. destruct sel as [css|]; [|reflexivity].
  destruct (truthy css); [|reflexivity].
  destruct (String.eqb rt "table_data"); [destruct (read_html html); reflexivity|].
  destruct (String.eqb rt "text_block"); reflexivity.
Qed.

(** Extracting again from the state a first extraction left, with the
    results cleared as line 142 does, gives what the first one gave. *)
Lemma extract_twice html css rt d (s : SessionState Table) :
  let s0 := clear_results Table (set_description Table (Some d) s) in
  run_extract html (Some css) rt
    (clear_results Table
       (set_description Table (Some d) (fst (run_extract html (Some css) rt s0)))) =
  run_extract html (Some css) rt s0.
Proof.
  destruct s as [p u r t sl tl ds]. intros s0. subst s0.
  rewrite clear_results_eq, (extract_eq html css rt p u None None sl None (Some d)).
  destruct (truthy css) eqn:Hc.
  2: { cbn [fst]. now rewrite clear_results_eq, extract_eq, Hc. }
  destruct (String.eqb rt "table_data") eqn:Ht.
  { destruct (read_html html) eqn:Hr; cbn [fst];
      now rewrite clear_results_eq, extract_eq, Hc, Ht, Hr. }
  destruct (String.eqb rt "text_block") eqn:Hb; cbn [fst];
    now rewrite clear_results_eq, extract_eq, Hc, Ht, Hb.
Qed.

(** Without a fetched page the form is not shown: nothing happens. *)
Lemma click_no_page d (s : SessionState Table) :
  page_html s = None -> run_click d s = (s, []).
Proof. intros Hp. unfold extract_click. now rewrite Hp. Qed.

Lemma click_empty_page d (s : SessionState Table) html :
  page_html s = Some html -> truthy html = false -> run_click d s = (s, []).
Proof. intros Hp Hh. unfold extract_click. now rewrite Hp, Hh. Qed.

(** An empty description is refused with a warning; only the description
    field changes. *)
Lemma click_blank d (s : SessionState Table) html :
  page_html s = Some html -> truthy html = true -> truthy d = false ->
  run_click d s =
    (set_description Table (Some d) s,
     [st_warning "Please describe what you want to extract."]).
Proof. intros Hp Hh Hd. unfold extract_click. now rewrite Hp, Hh, Hd. Qed.

(** The handler on a description that is not understood. *)
Lemma click_unrecognized (s : State) d html rt :
  page_html s = Some html -> truthy html = true -> truthy d = true ->
  description_to_selector d = (None, rt) ->
  run_click d s =
    (mkState (page_html s) (url s) None None (selector s) None (Some d),
     [st_error "Could not understand your description."]).
Proof.
  intros Hp Hh Hd Hs. unfold extract_click. rewrite Hp, Hh, Hd, Hs.
  unfold_state. rewrite Hp. reflexivity.
Qed.

(** The handler on a description that is understood. *)
Lemma click_recognized (s : State) d html css rt :
  page_html s = Some html -> truthy html = true -> truthy d = true ->
  description_to_selector d = (Some css, rt) ->
  run_click d s =
    run_extract html (Some css) rt (clear_results Table (set_description Table (Some d) s)).
Proof.
  intros Hp Hh Hd Hs. unfold extract_click. rewrite Hp, Hh, Hd, Hs. reflexivity.
Qed.

(** The handler on a description that mentions a table: the outcome of
    the table parser decides between a stored list and an error. *)
Lemma click_table_data (s : SessionState Table) d html :
  page_html s = Some html -> truthy html = true -> truthy d = true ->
  contains "table" (strip (lower d)) = true ->
  extract_click Table read_html select urljoin d s =
    match read_html html with
    | inr tables =>
        (mkState (Some html) (url s) None None (Some "table") (Some tables) (Some d), [])
    | inl e =>
        (mkState (Some html) (url s) None None (Some "table") None (Some d),
         [st_error ("Could not parse tables. Error: " ++ e)])
    end.
Proof.
  intros Hp Hh Hd Ht.
  assert (E : description_to_selector d = (Some "table", "table_data")).
  { unfold description_to_selector, description_to_selector_rule. now rewrite Ht. }
  rewrite (click_recognized s d html _ _ Hp Hh Hd E).
  unfold_state. rewrite Hp. destruct (read_html html); reflexivity.
Qed.

(** The handler on a description that is understood and asks for a list. *)
Lemma click_list (s : SessionState Table) d html css rt :
  page_html s = Some html -> truthy html = true -> truthy d = true ->
  description_to_selector d = (Some css, rt) ->
  String.eqb rt "table_data" = false -> String.eqb rt "text_block" = false ->
  extract_click Table read_html select urljoin d s =
    (mkState (Some html) (url s) (Some (run_collect rt (url s) (select html css)))
       None (Some css) None (Some d), []).
Proof.
  intros Hp Hh Hd E Ht Hb.
  rewrite (click_recognized s d html _ _ Hp Hh Hd E).
  unfold_state. rewrite (selector_truthy d css rt E), Ht, Hb, Hp. reflexivity.
Qed.

(** The handler on a description that asks for a text block. *)
Lemma click_text_block (s : SessionState Table) d html css :
  page_html s = Some html -> truthy html = true -> truthy d = true ->
  description_to_selector d = (Some css, "text_block") ->
  extract_click Table read_html select urljoin d s =
    (mkState (Some html) (url s) None (Some (text_block (select html css)))
       (Some css) None (Some d), []).
Proof.
  intros Hp Hh Hd E.
  rewrite (click_recognized s d html _ _ Hp Hh Hd E).
  unfold_state. rewrite (selector_truthy d css _ E), Hp. reflexivity.
Qed.

(** *** The loop over the selected elements *)

(** What one element adds to the list. *)
Lemma append_item_acc rt base acc el :
  append_item urljoin rt base acc el = (acc ++ append_item urljoin rt base [] el)%list.
Proof.
  unfold append_item.
  destruct (String.eqb rt "src").
  { destruct (truthy _ && negb _); [reflexivity|now rewrite app_nil_r]. }
  destruct (String.eqb rt "href").
  { destruct (truthy _); [reflexivity|now rewrite app_nil_r]. }
  destruct (truthy _); [reflexivity|now rewrite app_nil_r].
Qed.

Lemma fold_append_item rt base els :
  forall acc,
    fold_left (append_item urljoin rt base) els acc = (acc ++ run_collect rt base els)%list.
Proof.
  unfold collect. induction els as [|el els IH]; intros acc; simpl.
  - now rewrite app_nil_r.
  - rewrite (IH (append_item urljoin rt base acc el)),
            (IH (append_item urljoin rt base [] el)).
    rewrite (append_item_acc rt base acc el). now rewrite app_assoc.
Qed.

(** The loop, one element at a time and in document order. *)
Lemma collect_cons rt base el els :
  run_collect rt base (el :: els) =
    (append_item urljoin rt base [] el ++ run_collect rt base els)%list.
Proof.
  unfold collect at 1. simpl. apply fold_append_item.
Qed.

(** *** The claims on the handler *)

(** C2, as the code has it: when the description is not understood
    (the selector is [None]), the handler calls none of the parsers (its
    outcome is the same whatever they are) and stores no new result, but
    it has already reset [results_df], [results_text] and [table_list] to
    [None] (line 142 runs before the test of the selector); the page, its
    address and the last selector stay, the description is the new one,
    and one error is shown. *)
Theorem C2_unrecognized_resets_results (s : State) (d html : string) :
  page_html s = Some html -> truthy html = true -> truthy d = true ->
  fst (description_to_selector d) = None ->
  run_click d s =
    (mkState (Some html) (url s) None None (selector s) None (Some d),
     [st_error "Could not understand your description."]) /\
  result_set Table (fst (run_click d s)) = (None, None, None) /\
  (forall read_html' select' urljoin',
     extract_click Table read_html' select' urljoin' d s = run_click d s).
Proof.
  intros Hp Hh Hd Hs.
  destruct (description_to_selector d) as [sel rt] eqn:E. simpl in Hs. subst sel.
  rewrite (click_unrecognized s d html rt Hp Hh Hd E), Hp.
  split; [reflexivity|]. split; [reflexivity|].
  intros read_html' select' urljoin'. unfold extract_click. rewrite Hp, Hh, Hd, E.
  unfold_state. rewrite Hp. reflexivity.
Qed.

(** C3, as the code has it: for a description that mentions a table the
    handler has no case of its own for a page without tables.  It stores
    the list the table parser returns, an empty one too, and shows no
    error; whenever the parser raises, whatever the reason, it shows one
    error that ends with the parser's message and stores no result, no
    partial one either.  Nothing in the handler tells a page without
    tables from a page that cannot be parsed: the outcome of the parser
    alone decides. *)
Theorem C3_table_outcome_decided_by_parser (s : State) (d html : string) :
  page_html s = Some html -> truthy html = true -> truthy d = true ->
  contains "table" (strip (lower d)) = true ->
  (forall tables, read_html html = inr tables ->
     run_click d s =
       (mkState (Some html) (url s) None None (Some "table") (Some tables) (Some d), [])) /\
  (forall e, read_html html = inl e ->
     run_click d s =
       (mkState (Some html) (url s) None None (Some "table") None (Some d),
        [st_error ("Could not parse tables. Error: " ++ e)]) /\
     result_set Table (fst (run_click d s)) = (None, None, None)).
Proof.
  intros Hp Hh Hd Ht. rewrite (click_table_data s d html Hp Hh Hd Ht).
  split.
  - intros tables E. now rewrite E.
  - intros e E. rewrite E. split; reflexivity.
Qed.


(** C5: on the page [links_page] fetched from [https://ex.com/], when the
    selector engine finds its two anchors for [a] and [urljoin] resolves
    [/a] and [x] against that address as RFC 3986 does, the description
    [all links] selects [a] with result type [href] and the handler
    stores the two absolute links, in the order of the page, and nothing
    else. *)
Theorem C5_all_links_end_to_end (s : SessionState Table) :
  page_html s = Some links_page -> url s = Some "https://ex.com/" ->
  select links_page "a" = [anchor "/a" "A"; anchor "x" "B"] ->
  urljoin (Some "https://ex.com/") "/a" = "https://ex.com/a" ->
  urljoin (Some "https://ex.com/") "x" = "https://ex.com/x" ->
  description_to_selector "all links" = (Some "a", "href") /\
  extract_click Table read_html select urljoin "all links" s =
    (mkState (Some links_page) (Some "https://ex.com/")
       (Some ["https://ex.com/a"; "https://ex.com/x"]) None (Some "a") None
       (Some "all links"), []).
Proof.
  intros Hp Hu Hs Ha Hx.
  assert (E : description_to_selector "all links" = (Some "a", "href"))
    by (vm_compute; reflexivity).
  split; [exact E|].
  rewrite (click_list s "all links" links_page "a" "href" Hp eq_refl eq_refl E eq_refl eq_refl).
  rewrite Hu, Hs. rewrite !collect_cons. unfold append_item, get, anchor. simpl.
  rewrite !lookup_singleton_eq. simpl. rewrite Ha, Hx. reflexivity.
Qed.

(** C7: the handler is a function of the page, its address and the
    description.  Running it a second time with the same description
    changes nothing: the state and the messages are those of the first
    run.  And with a page fetched and a description given, two sessions
    with the same page and address get the same three result fields and
    the same messages, whatever results and selector they held before. *)
Theorem C7_extraction_deterministic :
  (forall d s, run_click d (fst (run_click d s)) = run_click d s) /\
  (forall d html s1 s2,
     page_html s1 = Some html -> page_html s2 = Some html -> truthy html = true ->
     truthy d = true -> url s1 = url s2 ->
     result_set Table (fst (run_click d s1)) = result_set Table (fst (run_click d s2)) /\
     snd (run_click d s1) = snd (run_click d s2)).
Proof.
  split.
  - intros d s.
    destruct (page_html s) as [html|] eqn:Hp.
    2: { rewrite (click_no_page d s Hp). exact (click_no_page d s Hp). }
    destruct (truthy html) eqn:Hh.
    2: { rewrite (click_empty_page d s html Hp Hh). exact (click_empty_page d s html Hp Hh). }
    destruct (truthy d) eqn:Hd.
    2: { rewrite (click_blank d s html Hp Hh Hd). cbn [fst].
         exact (click_blank d (set_description Table (Some d) s) html Hp Hh Hd). }
    destruct (description_to_selector d) as [[css|] rt] eqn:E.
    + rewrite (click_recognized s d html _ _ Hp Hh Hd E).
      set (s0 := clear_results Table (set_description Table (Some d) s)).
      assert (Hp0 : page_html s0 = Some html) by exact Hp.
      rewrite (click_recognized _ d html css rt
                 (eq_trans (extract_keeps_page html (Some css) rt s0) Hp0) Hh Hd E).
      apply extract_twice.
    + rewrite (click_unrecognized s d html rt Hp Hh Hd E).
      cbn [fst].
      exact (click_unrecognized (mkState (page_html s) (url s) None None (selector s) None (Some d))
               d html rt Hp Hh Hd E).
  - intros d html s1 s2 Hp1 Hp2 Hh Hd Hu.
    destruct (description_to_selector d) as [[css|] rt] eqn:E.
    + rewrite (click_recognized s1 d html _ _ Hp1 Hh Hd E),
              (click_recognized s2 d html _ _ Hp2 Hh Hd E).
      destruct s1 as [p1 u1 r1 t1 sl1 tl1 ds1], s2 as [p2 u2 r2 t2 sl2 tl2 ds2].
      cbn [url] in Hu. subst u2. rewrite !clear_results_eq, !extract_eq.
      destruct (truthy css); [|split; reflexivity].
      destruct (String.eqb rt "table_data"); [destruct (read_html html); split; reflexivity|].
      destruct (String.eqb rt "text_block"); split; reflexivity.
    + rewrite (click_unrecognized s1 d html rt Hp1 Hh Hd E),
              (click_unrecognized s2 d html rt Hp2 Hh Hd E).
      split; reflexivity.
Qed.

End ExtractorProperties.

(** *** The handler on the sample pages *)

Lemma C2_unrecognized_resets_results_witness :
  extract_click Grid (read_html_raises Grid) select_links resolve_path "???" (after_links Grid) =
    (mkState (Some links_page) (Some "https://ex.com/") None None (Some "a") None (Some "???"),
     [st_error "Could not understand your description."]) /\
  result_set Grid
    (fst (extract_click Grid (read_html_raises Grid) select_links resolve_path "???" (after_links Grid)))
  = (None, None, None).
Proof.
  pose proof (C2_unrecognized_resets_results Grid (read_html_raises Grid) select_links resolve_path
                (after_links Grid) "???" links_page eq_refl eq_refl eq_refl eq_refl)
    as (Hrun & Hres & _).
  split; [exact Hrun|exact Hres].
Defined.

(** C2 as stated fails: after [all links] was extracted, the description
    [???] gets no selector, and the list of links that was stored is gone,
    whatever the parsers are. *)
Lemma C2_prior_results_are_lost :
  fst (description_to_selector "???") = None /\
  results_df (after_links Grid) = Some ["https://ex.com/a"; "https://ex.com/x"] /\
  (forall read_html select urljoin,
     results_df (fst (extract_click Grid read_html select urljoin "???" (after_links Grid))) = None).
Proof.
  split; [vm_compute; reflexivity|]. split; [reflexivity|].
  intros read_html select urljoin.
  pose proof (click_unrecognized Grid read_html select urljoin (after_links Grid)
                "???" links_page "text") as H.
  rewrite H; [reflexivity| | | |]; vm_compute; reflexivity.
Qed.

(** With a parser that raises on a page without tables, as
    [pandas.read_html] does, the page without tables ends in the error. *)
Example no_table_is_an_error :
  extract_click Grid (read_html_raises Grid) select_links resolve_path "the table"
    (fetched Grid "https://ex.com/" plain_page) =
  (mkState (Some plain_page) (Some "https://ex.com/") None None (Some "table") None
     (Some "the table"),
   [st_error "Could not parse tables. Error: No tables found"]).
Proof. vm_compute. reflexivity. Qed.

(** C3 as stated fails.  [pandas.read_html] raises on a document in
    which it finds no table, with the message [No tables found]; on the
    well-formed page [plain_page], which has none, the description [the
    table] therefore ends in the error and no list is stored, not in an
    empty list without error.  The same holds with every parser that
    raises there. *)
Lemma C3_page_without_tables_is_an_error :
  extract_click Grid (read_html_raises Grid) select_links resolve_path "the table"
    (fetched Grid "https://ex.com/" plain_page) =
  (mkState (Some plain_page) (Some "https://ex.com/") None None (Some "table") None
     (Some "the table"),
   [st_error "Could not parse tables. Error: No tables found"]) /\
  (forall (read_html : string -> string + list Grid) e,
     read_html plain_page = inl e ->
     table_list (fst (extract_click Grid read_html select_links resolve_path "the table"
                        (fetched Grid "https://ex.com/" plain_page))) = None /\
     snd (extract_click Grid read_html select_links resolve_path "the table"
            (fetched Grid "https://ex.com/" plain_page)) =
       [st_error ("Could not parse tables. Error: " ++ e)]).
Proof.
  split; [vm_compute; reflexivity|].
  intros read_html e E.
  rewrite (click_table_data Grid read_html select_links resolve_path
             (fetched Grid "https://ex.com/" plain_page) "the table" plain_page
             eq_refl eq_refl eq_refl eq_refl), E.
  split; reflexivity.
Qed.

Lemma C3_table_outcome_decided_by_parser_witness :
  (forall tables, read_html_raises Grid plain_page = inr tables ->
     extract_click Grid (read_html_raises Grid) select_links resolve_path "the table"
       (fetched Grid "https://ex.com/" plain_page) =
       (mkState (Some plain_page) (url (fetched Grid "https://ex.com/" plain_page))
          None None (Some "table") (Some tables) (Some "the table"), [])) /\
  (forall e, read_html_raises Grid plain_page = inl e ->
     extract_click Grid (read_html_raises Grid) select_links resolve_path "the table"
       (fetched Grid "https://ex.com/" plain_page) =
       (mkState (Some plain_page) (url (fetched Grid "https://ex.com/" plain_page))
          None None (Some "table") None (Some "the table"),
        [st_error ("Could not parse tables. Error: " ++ e)]) /\
     result_set Grid
       (fst (extract_click Grid (read_html_raises Grid) select_links resolve_path
               "the table" (fetched Grid "https://ex.com/" plain_page))) =
       (None, None, None)).
Proof.
  apply (C3_table_outcome_decided_by_parser Grid (read_html_raises Grid) select_links
           resolve_path (fetched Grid "https://ex.com/" plain_page) "the table" plain_page);
    reflexivity.
Defined.

(** With a parser that returns the empty list, the empty list is stored. *)
Example empty_table_list_is_stored :
  extract_click Grid (read_html_returns []) select_links resolve_path "the table"
    (fetched Grid "https://ex.com/" plain_page) =
  (mkState (Some plain_page) (Some "https://ex.com/") None None (Some "table") (Some [])
     (Some "the table"), []).
Proof. vm_compute. reflexivity. Qed.



Lemma C5_all_links_end_to_end_witness :
  description_to_selector "all links" = (Some "a", "href") /\
  extract_click Grid (read_html_raises Grid) select_links resolve_path "all links"
    (fetched Grid "https://ex.com/" links_page) =
  (mkState (Some links_page) (Some "https://ex.com/")
     (Some ["https://ex.com/a"; "https://ex.com/x"]) None (Some "a") None
     (Some "all links"), []).
Proof.
  apply (C5_all_links_end_to_end Grid (read_html_raises Grid) select_links resolve_path
           (fetched Grid "https://ex.com/" links_page)); vm_compute; reflexivity.
Defined.

Lemma C6_text_block_segments_witness :
  text_block ([paragraph [" first "]] ++ paragraph ["   "] :: [paragraph ["se"; " cond "]]) =
  text_block ([paragraph [" first "]] ++ [paragraph ["se"; " cond "]]).
Proof.
  apply (proj1 (proj2 (proj2 (C6_text_block_segments []))) [paragraph [" first "]]
           (paragraph ["   "]) [paragraph ["se"; " cond "]]).
  vm_compute. reflexivity.
Defined.

Example text_block_paragraphs :
  text_block [paragraph ["  first "]; paragraph []; paragraph ["   "]; paragraph ["se"; " cond "]]
  = "first" ++ sep_blank_line ++ "second".
Proof. vm_compute. reflexivity. Qed.

Lemma C7_extraction_deterministic_witness :
  result_set Grid
    (fst (extract_click Grid (read_html_raises Grid) select_links resolve_path "all links"
            (fetched Grid "https://ex.com/" links_page))) =
  result_set Grid
    (fst (extract_click Grid (read_html_raises Grid) select_links resolve_path "all links"
            (after_links Grid))) /\
  snd (extract_click Grid (read_html_raises Grid) select_links resolve_path "all links"
         (fetched Grid "https://ex.com/" links_page)) =
  snd (extract_click Grid (read_html_raises Grid) select_links resolve_path "all links"
         (after_links Grid)).
Proof.
  apply (proj2 (C7_extraction_deterministic Grid (read_html_raises Grid) select_links resolve_path)
           "all links" links_page); reflexivity.
Defined.

(** ** PageFetcher: the scroll loop *)

Section ScrollLoopProperties.

Variable heights : nat -> Z.

Local Abbreviation cycles_from := (Fetch.cycles_from heights).

Lemma cycles_from_cons x range k last :
  cycles_from (x :: range) k last =
    S (if (heights k =? last)%Z then 0 else cycles_from range (S k) (heights k)).
Proof.
  unfold Fetch.cycles_from. cbn [scroll_cycles List.filter is_scroll length].
  destruct (heights k =? last)%Z; reflexivity.
Qed.

Lemma cycles_eq : cycles heights = cycles_from (seq 0 5) 1 (heights 0).
Proof. reflexivity. Qed.

Lemma trace_length range : forall k last,
  length (scroll_cycles heights range k last) = 3 * cycles_from range k last.
Proof.
  induction range as [|x range IH]; intros k last; [reflexivity|].
  rewrite cycles_from_cons. cbn [scroll_cycles length].
  destruct (heights k =? last)%Z; [reflexivity|].
  rewrite IH. lia.
Qed.

(** The loop after reading number [k0], the last one it has seen. *)
Lemma cycles_from_spec range : forall k0,
  let n := cycles_from range (S k0) (heights k0) in
  n <= length range /\
  (range <> [] -> 1 <= n) /\
  (forall j, j + 1 < n -> heights (S (k0 + j)) <> heights (k0 + j)) /\
  (n < length range -> heights (k0 + n) = heights (k0 + n - 1)) /\
  (forall j, j < length range -> heights (S (k0 + j)) = heights (k0 + j) -> n <= S j).
Proof.
  induction range as [|x range IH]; intros k0 n.
  - subst n. change (cycles_from [] (S k0) (heights k0)) with 0. cbn [length].
    split; [lia|]. split; [intros H; now contradiction H|].
    repeat split; intros; lia.
  - subst n. rewrite cycles_from_cons.
    destruct (heights (S k0) =? heights k0)%Z eqn:E.
    + apply Z.eqb_eq in E. simpl length. repeat split; try lia.
      intros _. replace (k0 + 1) with (S k0) by lia.
      replace (S k0 - 1) with k0 by lia. exact E.
    + apply Z.eqb_neq in E.
      destruct (IH (S k0)) as (Hle & _ & Hne & Heq & Hstop). simpl length.
      repeat split; try lia.
      * intros [|j] Hj.
        { replace (k0 + 0) with k0 by lia. exact E. }
        replace (k0 + S j) with (S k0 + j) by lia. apply Hne. lia.
      * intros Hn.
        replace (k0 + S (cycles_from range (S (S k0)) (heights (S k0))))
          with (S k0 + cycles_from range (S (S k0)) (heights (S k0))) by lia.
        rewrite Heq by lia. f_equal; lia.
      * intros [|j] Hj Hsame.
        { replace (k0 + 0) with k0 in Hsame by lia. contradiction. }
        replace (k0 + S j) with (S k0 + j) in Hsame by lia.
        apply le_n_S. apply Hstop; [lia|exact Hsame].
Qed.

(** The loop over a sequence of observed heights. *)
Lemma scroll_loop_spec :
  1 <= cycles heights <= 5 /\
  length (scroll_loop heights) = 1 + 3 * cycles heights /\
  (forall j, 1 <= j < cycles heights -> heights j <> heights (j - 1)) /\
  (cycles heights < 5 -> heights (cycles heights) = heights (cycles heights - 1)) /\
  (forall j, 1 <= j <= 5 -> heights j = heights (j - 1) -> cycles heights <= j).
Proof.
  destruct (cycles_from_spec (seq 0 5) 0) as (Hle & Hge & Hne & Heq & Hstop).
  rewrite cycles_eq. change (length (seq 0 5)) with 5 in Hle, Heq, Hstop.
  split; [split; [apply Hge; discriminate|exact Hle]|].
  split; [|split; [|split]].
  - unfold scroll_loop. cbn [length]. rewrite trace_length. lia.
  - intros j Hj. destruct j as [|j]; [lia|].
    replace (S j - 1) with (0 + j) by lia. apply (Hne j). lia.
  - intros Hn. apply Heq. exact Hn.
  - intros j Hj Hsame. destruct j as [|j]; [lia|].
    replace (S j - 1) with (0 + j) in Hsame by lia.
    apply (Hstop j); [lia|exact Hsame].
Qed.

End ScrollLoopProperties.

Example scroll_settles : cycles heights_settle = 3.
Proof. reflexivity. Qed.

(** C8 as stated fails: with heights that shrink at every reading the
    height never increases, yet the loop does not stop early; it runs all
    five cycles. *)
Lemma C8_shrinking_heights_run_five_cycles :
  (forall k, (heights_shrink (S k) < heights_shrink k)%Z) /\
  cycles heights_shrink = 5.
Proof.
  split; [|reflexivity].
  intros k. unfold heights_shrink. lia.
Qed.

(** * Further properties *)

(** ** The normal form of a description *)

Lemma lower_char_idem c : lower_char (lower_char c) = lower_char c.
Proof. destruct c as [[] [] [] [] [] [] [] []]; vm_compute; reflexivity. Qed.

Lemma is_space_lower_char c : is_space (lower_char c) = is_space c.
Proof. destruct c as [[] [] [] [] [] [] [] []]; vm_compute; reflexivity. Qed.

Lemma app_cons c (s t : string) : String c s ++ t = String c (s ++ t).
Proof. reflexivity. Qed.

Lemma lower_cons c s : lower (String c s) = String (lower_char c) (lower s).
Proof. reflexivity. Qed.

Lemma lower_idem s : lower (lower s) = lower s.
Proof.
  induction s as [|c s IH]; [reflexivity|].
  rewrite !lower_cons, lower_char_idem, IH. reflexivity.
Qed.

Lemma lower_app s t : lower (s ++ t) = lower s ++ lower t.
Proof.
  induction s as [|c s IH]; [reflexivity|].
  rewrite app_cons, !lower_cons, app_cons, IH. reflexivity.
Qed.

Lemma lower_lstrip s : lower (lstrip s) = lstrip (lower s).
Proof.
  induction s as [|c s IH]; [reflexivity|].
  rewrite lower_cons. cbn [lstrip]. rewrite is_space_lower_char.
  destruct (is_space c); [exact IH|reflexivity].
Qed.

Lemma lower_rstrip s : lower (rstrip s) = rstrip (lower s).
Proof.
  induction s as [|c s IH]; [reflexivity|].
  rewrite lower_cons. cbn [rstrip]. rewrite <- IH, is_space_lower_char.
  destruct (rstrip s) as [|a r]; [destruct (is_space c); reflexivity|reflexivity].
Qed.

Lemma lower_strip s : lower (strip s) = strip (lower s).
Proof. unfold strip. now rewrite lower_rstrip, lower_lstrip. Qed.

Lemma rstrip_idem s : rstrip (rstrip s) = rstrip s.
Proof.
  induction s as [|c s IH]; [reflexivity|].
  cbn [rstrip]. destruct (rstrip s) as [|a r] eqn:E.
  - destruct (is_space c) eqn:Hc; [reflexivity|]. cbn [rstrip]. now rewrite Hc.
  - cbn [rstrip] in *. rewrite IH. reflexivity.
Qed.

(** What [lstrip] leaves starts with a character that is not white space. *)
Lemma lstrip_head s :
  lstrip s = "" \/ exists c r, lstrip s = String c r /\ is_space c = false.
Proof.
  induction s as [|c s IH]; [now left|].
  cbn [lstrip]. destruct (is_space c) eqn:Hc; [exact IH|].
  right. now exists c, s.
Qed.

Lemma rstrip_keeps_head c r :
  is_space c = false -> exists r', rstrip (String c r) = String c r'.
Proof.
  intros Hc. cbn [rstrip]. rewrite Hc. destruct (rstrip r) as [|a r'].
  - now exists "".
  - now exists (String a r').
Qed.

Lemma strip_idem s : strip (strip s) = strip s.
Proof.
  unfold strip. destruct (lstrip_head s) as [E|(c & r & E & Hc)]; rewrite E.
  - reflexivity.
  - destruct (rstrip_keeps_head c r Hc) as [r' E']. rewrite E'.
    cbn [lstrip]. rewrite Hc, <- E'. apply rstrip_idem.
Qed.

Lemma normal_idem d : normal (normal d) = normal d.
Proof.
  unfold normal. now rewrite lower_strip, lower_idem, strip_idem.
Qed.

Lemma all_space_lower pad : all_space pad -> lower pad = pad.
Proof. exact (lower_all_space pad). Qed.

Lemma lstrip_app_space pad s : all_space pad -> lstrip (pad ++ s) = lstrip s.
Proof.
  induction pad as [|c pad IH]; intros H; [reflexivity|].
  apply all_space_cons in H as [Hc H]. rewrite app_cons. cbn [lstrip].
  rewrite Hc. now apply IH.
Qed.

Lemma rstrip_all_space pad : all_space pad -> rstrip pad = "".
Proof.
  induction pad as [|c pad IH]; intros H; [reflexivity|].
  apply all_space_cons in H as [Hc H]. cbn [rstrip]. now rewrite (IH H), Hc.
Qed.

Lemma rstrip_app_space s pad : all_space pad -> rstrip (s ++ pad) = rstrip s.
Proof.
  intros H. induction s as [|c s IH]; [now apply rstrip_all_space|].
  rewrite app_cons. cbn [rstrip]. now rewrite IH.
Qed.

Lemma strip_app_space s pad : all_space pad -> strip (s ++ pad) = strip s.
Proof.
  intros H. unfold strip. induction s as [|c s IH].
  - change ("" ++ pad) with pad. rewrite (lstrip_all_space pad H). reflexivity.
  - rewrite app_cons. cbn [lstrip]. destruct (is_space c); [exact IH|].
    rewrite <- app_cons. now apply rstrip_app_space.
Qed.

Lemma normal_padding pad1 d pad2 :
  all_space pad1 -> all_space pad2 -> normal (pad1 ++ d ++ pad2) = normal d.
Proof.
  intros H1 H2. unfold normal.
  rewrite !lower_app, (all_space_lower pad1 H1), (all_space_lower pad2 H2).
  unfold strip at 1. rewrite (lstrip_app_space pad1 _ H1).
  apply (strip_app_space (lower d) pad2 H2).
Qed.

(** The interpreter reads its argument through the normal form only. *)
Lemma rule_of_normal d1 d2 :
  normal d1 = normal d2 -> description_to_selector_rule d1 = description_to_selector_rule d2.
Proof.
  unfold normal, description_to_selector_rule. intros E. rewrite E. reflexivity.
Qed.

(** X1: [description_to_selector] ignores case and surrounding white
    space: a description in lower case, a description padded with white
    space on either side and the normal form of a description all get the
    result, by the same rule, of the description itself. *)
Theorem X1_case_and_padding_ignored (d : string) :
  description_to_selector_rule (lower d) = description_to_selector_rule d /\
  description_to_selector_rule (normal d) = description_to_selector_rule d /\
  (forall pad1 pad2, all_space pad1 -> all_space pad2 ->
     description_to_selector_rule (pad1 ++ d ++ pad2) = description_to_selector_rule d).
Proof.
  split; [|split].
  - apply rule_of_normal. unfold normal. now rewrite lower_idem.
  - apply rule_of_normal. apply normal_idem.
  - intros pad1 pad2 H1 H2. apply rule_of_normal. now apply normal_padding.
Qed.

Lemma X1_case_and_padding_ignored_witness :
  description_to_selector_rule ("  " ++ "All LINKS" ++ " ") = description_to_selector_rule "All LINKS".
Proof.
  apply (proj2 (proj2 (X1_case_and_padding_ignored "All LINKS")) "  " " ");
    intros c Hc; simpl in Hc; intuition (subst; reflexivity).
Defined.

(** ** The rules, one by one *)

(** The chain of tests of lines 51 to 63, with the tests that failed. *)
Lemma chain_cases d :
  let n := normal d in
  description_to_selector_rule d = (RTable, (Some "table", "table_data")) \/
  description_to_selector_rule d = (RKeyword, (Some "img", "src")) \/
  description_to_selector_rule d = (RKeyword, (Some "a", "href")) \/
  description_to_selector_rule d = (RBody, (Some "body", "text_block")) \/
  description_to_selector_rule d = (RParagraph, (Some "p", "text_block")) \/
  (contains "table" n = false /\ contains "image" n = false /\
   contains "link" n || contains "url" n = false /\
   existsb (fun phrase => contains phrase n) phrases = false /\
   contains "all paragraph" n = false /\
   description_to_selector_rule d = lookup_and_patterns n "text" n).
Proof.
  intros n. unfold description_to_selector_rule. fold (normal d). fold n.
  destruct (contains "table" n) eqn:Ht; [now left|right].
  destruct (contains "image" n) eqn:Hi; [left; apply lookup_images|right].
  destruct (contains "link" n || contains "url" n) eqn:Hl; [left; apply lookup_links|right].
  destruct (existsb _ phrases) eqn:Hp; [now left|right].
  destruct (contains "all paragraph" n) eqn:Ha; [now left|right].
  repeat split; reflexivity.
Qed.

(** The keys of the phrase table. *)
Lemma keyword_map_keys k v :
  keyword_map !! k = Some v ->
  (k = "all links" /\ v = "a") \/ (k = "all paragraphs" /\ v = "p") \/
  (k = "all headings" /\ v = "h1, h2, h3") \/ (k = "all images" /\ v = "img") \/
  (k = "all list items" /\ v = "li").
Proof.
  unfold keyword_map. intros H.
  apply lookup_insert_Some in H as [[<- <-]|[_ H]]; [tauto|].
  apply lookup_insert_Some in H as [[<- <-]|[_ H]]; [tauto|].
  apply lookup_insert_Some in H as [[<- <-]|[_ H]]; [tauto|].
  apply lookup_insert_Some in H as [[<- <-]|[_ H]]; [tauto|].
  apply lookup_singleton_Some in H as [<- <-]. tauto.
Qed.

(** X2: when the phrase table answers (line 69), the result is one of
    four pairs: [img] with [src], [a] with [href], the headings or the list
    items with [text].  Its entry for [all paragraphs] is never used: a
    description that reaches the table holds no [all paragraph], because
    line 62 has answered those with [text_block]. *)
Theorem X2_phrase_table_results (d : string) :
  fired_rule d = RKeyword ->
  description_to_selector d = (Some "img", "src") \/
  description_to_selector d = (Some "a", "href") \/
  description_to_selector d = (Some "h1, h2, h3", "text") \/
  description_to_selector d = (Some "li", "text").
Proof.
  unfold fired_rule, description_to_selector. intros H.
  destruct (chain_cases d) as [E|[E|[E|[E|[E|(Ht & Hi & Hl & Hp & Ha & E)]]]]];
    rewrite E in *; try discriminate H; [now left|right; now left|].
  clear E. revert H. unfold lookup_and_patterns.
  remember (normal d) as n eqn:Hn. clear Hn.
  destruct (keyword_map !! n) as [v|] eqn:Hk.
  - intros _. apply keyword_map_keys in Hk
      as [[-> ->]|[[-> ->]|[[-> ->]|[[-> ->]|[-> ->]]]]]; cbn [snd].
    + discriminate Hl.
    + discriminate Ha.
    + right; right; now left.
    + discriminate Hi.
    + right; right; now right.
  - destruct (search_quoted "id" n); [intros H; discriminate H|].
    destruct (search_quoted "class" n); [intros H; discriminate H|].
    destruct (negb (contains " " n) && match_alnum n); intros H; discriminate H.
Qed.

Lemma X2_phrase_table_results_witness :
  description_to_selector "All Headings" = (Some "img", "src") \/
  description_to_selector "All Headings" = (Some "a", "href") \/
  description_to_selector "All Headings" = (Some "h1, h2, h3", "text") \/
  description_to_selector "All Headings" = (Some "li", "text").
Proof.
  apply (X2_phrase_table_results "All Headings"). vm_compute. reflexivity.
Defined.

Example all_paragraphs_is_a_text_block :
  description_to_selector_rule "all paragraphs" = (RParagraph, (Some "p", "text_block")).
Proof. vm_compute. reflexivity. Qed.

(** *** The two patterns *)

Lemma span_spec p s : forall g r,
  span p s = (g, r) ->
  s = g ++ r /\
  (forall c, In c (list_ascii_of_string g) -> p c = true) /\
  (r = "" \/ exists c r', r = String c r' /\ p c = false).
Proof.
  induction s as [|a s IH]; intros g r H; cbn [span] in H.
  - inversion H. subst. split; [reflexivity|]. split; [intros c []|now left].
  - destruct (p a) eqn:Ha.
    + destruct (span p s) as [g' r'] eqn:E. inversion H. subst.
      destruct (IH g' r eq_refl) as (Hs & Hg & Hr). split; [|split].
      * rewrite app_cons, <- Hs. reflexivity.
      * intros c [<-|Hc]; [exact Ha|now apply Hg].
      * exact Hr.
    + inversion H. subst. split; [reflexivity|]. split; [intros c []|].
      right. now exists a, s.
Qed.

Lemma span_app p g : forall c r,
  (forall x, In x (list_ascii_of_string g) -> p x = true) -> p c = false ->
  span p (g ++ String c r) = (g, String c r).
Proof.
  induction g as [|a g IH]; intros c r Hg Hc.
  - change ("" ++ String c r) with (String c r). cbn [span]. now rewrite Hc.
  - rewrite app_cons. cbn [span]. rewrite (Hg a (or_introl eq_refl)).
    rewrite (IH c r); [reflexivity| |exact Hc].
    intros x Hx. apply Hg. now right.
Qed.

Lemma quote_free_chars g :
  quote_free g = true <->
  (forall c, In c (list_ascii_of_string g) -> negb (is_quote c) = true).
Proof.
  induction g as [|a g IH]; cbn [quote_free list_ascii_of_string].
  - split; [intros _ c []|reflexivity].
  - rewrite andb_true_iff, IH. split.
    + intros [Ha Hg] c [<-|Hc]; [exact Ha|now apply Hg].
    + intros H. split; [apply H; now left|]. intros c Hc. apply H. now right.
Qed.

Lemma drop_prefix_spec kw : forall s r, drop_prefix kw s = Some r -> s = kw ++ r.
Proof.
  induction kw as [|a kw IH]; intros s r H.
  - destruct s; inversion H; reflexivity.
  - destruct s as [|b s]; [discriminate H|]. cbn [drop_prefix] in H.
    destruct (Ascii.eqb a b) eqn:E; [|discriminate H].
    apply Ascii.eqb_eq in E. subst b. rewrite app_cons, <- (IH s r H). reflexivity.
Qed.

Lemma drop_prefix_app kw r : drop_prefix kw (kw ++ r) = Some r.
Proof.
  induction kw as [|a kw IH]; [destruct r; reflexivity|].
  rewrite app_cons. cbn [drop_prefix]. now rewrite Ascii.eqb_refl.
Qed.

(** What the pattern matched at the head of [s] looks like. *)
Lemma quoted_value_spec s g :
  quoted_value s = Some g ->
  g <> "" /\ quote_free g = true /\
  exists w q1 q2 post,
    s = String w (String q1 (g ++ String q2 post)) /\
    is_space w = true /\ is_quote q1 = true /\ is_quote q2 = true.
Proof.
  unfold quoted_value. destruct s as [|w [|q1 t]]; try (intros H; discriminate H).
  destruct (is_space w && is_quote q1) eqn:Hwq; [|intros H; discriminate H].
  apply andb_true_iff in Hwq as [Hw Hq1].
  destruct (span (fun c => negb (is_quote c)) t) as [g' r] eqn:E.
  destruct g' as [|c g']; [intros H; discriminate H|].
  destruct r as [|q2 post]; intros H; inversion H. subst g.
  destruct (span_spec _ _ _ _ E) as (Ht & Hg & Hr).
  split; [discriminate|]. split; [now apply quote_free_chars|].
  exists w, q1, q2, post. repeat split; try assumption.
  - now rewrite Ht.
  - destruct Hr as [Hr|(c' & r' & Hr & Hc')]; [discriminate Hr|].
    inversion Hr. subst. now apply negb_false_iff in Hc'.
Qed.

Lemma quoted_value_app w q1 g q2 post :
  is_space w = true -> is_quote q1 = true -> is_quote q2 = true ->
  quote_free g = true -> g <> "" ->
  quoted_value (String w (String q1 (g ++ String q2 post))) = Some g.
Proof.
  intros Hw Hq1 Hq2 Hg Hne. unfold quoted_value. rewrite Hw, Hq1. cbn [andb].
  rewrite (span_app (fun c => negb (is_quote c)) g q2 post).
  - destruct g; [now contradiction Hne|reflexivity].
  - now apply quote_free_chars.
  - now rewrite Hq2.
Qed.

(** [re.search] finds only what the pattern describes. *)
Lemma search_quoted_sound kw s : forall g,
  search_quoted kw s = Some g ->
  g <> "" /\ quote_free g = true /\ quoted_occurrence kw g s.
Proof.
  induction s as [|a s IH]; intros g H.
  - cbn [search_quoted] in H. destruct (match_quoted_at kw "") as [g0|] eqn:E;
      [|discriminate H]. inversion H. subst g0.
    unfold match_quoted_at in E. destruct (drop_prefix kw "") as [r|] eqn:D;
      [|discriminate E].
    apply drop_prefix_spec in D.
    destruct (quoted_value_spec r g E) as (Hne & Hg & w & q1 & q2 & post & Hr & Hs).
    split; [exact Hne|]. split; [exact Hg|].
    exists "", w, q1, q2, post. split; [|exact Hs]. subst r. exact D.
  - cbn [search_quoted] in H.
    destruct (match_quoted_at kw (String a s)) as [g0|] eqn:E.
    + inversion H. subst g0. unfold match_quoted_at in E.
      destruct (drop_prefix kw (String a s)) as [r|] eqn:D; [|discriminate E].
      apply drop_prefix_spec in D.
      destruct (quoted_value_spec r g E) as (Hne & Hg & w & q1 & q2 & post & Hr & Hs).
      split; [exact Hne|]. split; [exact Hg|].
      exists "", w, q1, q2, post. split; [|exact Hs]. subst r. exact D.
    + destruct (IH g H) as (Hne & Hg & pre & w & q1 & q2 & post & Hs & Hrest).
      split; [exact Hne|]. split; [exact Hg|].
      exists (String a pre), w, q1, q2, post. split; [|exact Hrest].
      rewrite app_cons, <- Hs. reflexivity.
Qed.

(** [re.search] finds a match wherever the pattern occurs. *)
Lemma search_quoted_complete kw g s :
  quoted_occurrence kw g s -> quote_free g = true -> g <> "" ->
  exists g', search_quoted kw s = Some g'.
Proof.
  intros (pre & w & q1 & q2 & post & Hs & Hw & Hq1 & Hq2) Hg Hne. subst s.
  induction pre as [|a pre IH].
  - change ("" ++ kw ++ String w (String q1 (g ++ String q2 post)))
      with (kw ++ String w (String q1 (g ++ String q2 post))).
    exists g.
    assert (E : match_quoted_at kw (kw ++ String w (String q1 (g ++ String q2 post))) = Some g).
    { unfold match_quoted_at. rewrite drop_prefix_app. now apply quoted_value_app. }
    destruct (kw ++ String w (String q1 (g ++ String q2 post))); cbn [search_quoted];
      now rewrite E.
  - rewrite app_cons. cbn [search_quoted].
    destruct (match_quoted_at kw _) as [g0|]; [now exists g0|exact IH].
Qed.

(** What the rules after the phrase table return, with the test that
    chose them. *)
Lemma pattern_cases n :
  (exists v, keyword_map !! n = Some v /\
     lookup_and_patterns n "text" n = (RKeyword, (Some v, "text"))) \/
  (exists g, search_quoted "id" n = Some g /\
     lookup_and_patterns n "text" n = (RId, (Some ("#" ++ g), "text"))) \/
  (exists g, search_quoted "id" n = None /\ search_quoted "class" n = Some g /\
     lookup_and_patterns n "text" n =
       (RClass, (Some ("." ++ replace_char " " "." g), "text"))) \/
  (search_quoted "id" n = None /\ search_quoted "class" n = None /\
   match_alnum n = true /\
   lookup_and_patterns n "text" n = (RTag, (Some n, "text"))) \/
  (search_quoted "id" n = None /\ search_quoted "class" n = None /\
   lookup_and_patterns n "text" n = (RNone, (None, "text"))).
Proof.
  unfold lookup_and_patterns.
  destruct (keyword_map !! n) as [v|]; [left; now exists v|right].
  destruct (search_quoted "id" n) as [g|]; [left; now exists g|right].
  destruct (search_quoted "class" n) as [g|]; [left; now exists g|right].
  destruct (negb (contains " " n) && match_alnum n) eqn:E; [left|right; tauto].
  apply andb_true_iff in E. tauto.
Qed.

(** X3: when the id rule answers (line 72), the selector is [#] followed
    by a value that is not empty and holds no quote, the result type is
    [text], and the normal form of the description holds [id], one
    white-space character, a quote, that value and a quote (the two quotes
    need not be the same). *)
Theorem X3_id_rule (d : string) :
  fired_rule d = RId ->
  exists g,
    description_to_selector d = (Some ("#" ++ g), "text") /\
    g <> "" /\ quote_free g = true /\ quoted_occurrence "id" g (normal d).
Proof.
  unfold fired_rule, description_to_selector. intros H.
  destruct (chain_cases d) as [E|[E|[E|[E|[E|(_ & _ & _ & _ & _ & E)]]]]];
    rewrite E in *; try discriminate H.
  destruct (pattern_cases (normal d))
    as [(v & _ & P)|[(g & S & P)|[(g & _ & _ & P)|[(_ & _ & _ & P)|(_ & _ & P)]]]];
    rewrite P in *; try discriminate H.
  exists g. split; [reflexivity|]. now apply search_quoted_sound.
Qed.

Lemma no_space_after_replace g : contains " " (replace_char " " "." g) = false.
Proof.
  induction g as [|c g IH]; [reflexivity|].
  unfold replace_char in *. cbn [map_chars]. rewrite contains_cons, IH, orb_false_r.
  destruct (Ascii.eqb c " ") eqn:E; [reflexivity|].
  apply Ascii.eqb_neq in E.
  destruct (String.prefix " " (String c (map_chars _ g))) eqn:P; [|reflexivity].
  apply prefix_cons in P as [P _]. now contradiction E.
Qed.

Lemma length_map_chars f s : String.length (map_chars f s) = String.length s.
Proof. induction s as [|c s IH]; [reflexivity|]. cbn [map_chars String.length]. now rewrite IH. Qed.

(** X4: when the class rule answers (line 75), no id pattern was found,
    the selector is a dot followed by the quoted value with every space
    turned into a dot, so it holds no space and is one character longer
    than the value, and the result type is [text]. *)
Theorem X4_class_rule (d : string) :
  fired_rule d = RClass ->
  exists g,
    description_to_selector d = (Some ("." ++ replace_char " " "." g), "text") /\
    g <> "" /\ quote_free g = true /\ quoted_occurrence "class" g (normal d) /\
    search_quoted "id" (normal d) = None /\
    contains " " ("." ++ replace_char " " "." g) = false /\
    String.length ("." ++ replace_char " " "." g) = S (String.length g).
Proof.
  unfold fired_rule, description_to_selector. intros H.
  destruct (chain_cases d) as [E|[E|[E|[E|[E|(_ & _ & _ & _ & _ & E)]]]]];
    rewrite E in *; try discriminate H.
  destruct (pattern_cases (normal d))
    as [(v & _ & P)|[(g & S & P)|[(g & Hid & S & P)|[(_ & _ & _ & P)|(_ & _ & P)]]]];
    rewrite P in *; try discriminate H.
  exists g. split; [reflexivity|].
  destruct (search_quoted_sound "class" (normal d) g S) as (Hne & Hg & Hocc).
  repeat split; try assumption.
  - change ("." ++ replace_char " " "." g) with (String "." (replace_char " " "." g)).
    rewrite contains_cons, no_space_after_replace. reflexivity.
  - change ("." ++ replace_char " " "." g) with (String "." (replace_char " " "." g)).
    cbn [String.length]. unfold replace_char. now rewrite length_map_chars.
Qed.

(** A string that [lower] leaves as it is and that is made of letters
    and digits is in lower case. *)
Lemma lower_alnum_char c :
  is_alnum c = true -> lower_char c = c ->
  between 97 122 (code c) || between 48 57 (code c) = true.
Proof.
  destruct c as [[] [] [] [] [] [] [] []]; vm_compute; intros H1 H2;
    try reflexivity; try discriminate H1; discriminate H2.
Qed.

Lemma lower_alnum_intro s :
  lower s = s -> (forall c, In c (list_ascii_of_string s) -> is_alnum c = true) ->
  lower_alnum s = true.
Proof.
  induction s as [|c s IH]; intros Hl Ha; [reflexivity|].
  rewrite lower_cons in Hl. inversion Hl as [[Hc Hs]].
  cbn [lower_alnum]. rewrite Hc, Hs.
  rewrite (lower_alnum_char c (Ha c (or_introl eq_refl)) Hc).
  apply IH; [exact Hs|]. intros x Hx. apply Ha. now right.
Qed.

(** What [rstrip] leaves does not end with white space. *)
Lemma rstrip_last s : forall g c, rstrip s = g ++ String c "" -> is_space c = false.
Proof.
  induction s as [|a s IH]; intros g c H.
  - destruct g; discriminate H.
  - cbn [rstrip] in H. destruct (rstrip s) as [|b r] eqn:E.
    + destruct (is_space a) eqn:Ha; [destruct g; discriminate H|].
      destruct g as [|x g]; [inversion H; now subst|].
      rewrite app_cons in H. inversion H. destruct g; discriminate.
    + destruct g as [|x g].
      * inversion H.
      * rewrite app_cons in H. inversion H as [[Hx Hr]]. now apply (IH g c).
Qed.

(** X5: when the tag rule answers (line 78), the selector is the normal
    form of the description itself; it is not empty and holds lower-case
    letters and digits only. *)
Theorem X5_tag_rule (d : string) :
  fired_rule d = RTag ->
  description_to_selector d = (Some (normal d), "text") /\
  normal d <> "" /\ lower_alnum (normal d) = true.
Proof.
  unfold fired_rule, description_to_selector. intros H.
  destruct (chain_cases d) as [E|[E|[E|[E|[E|(_ & _ & _ & _ & _ & E)]]]]];
    rewrite E in *; try discriminate H.
  destruct (pattern_cases (normal d))
    as [(v & _ & P)|[(g & S & P)|[(g & _ & _ & P)|[(_ & _ & M & P)|(_ & _ & P)]]]];
    rewrite P in *; try discriminate H.
  split; [reflexivity|].
  assert (Hl : lower (normal d) = normal d).
  { unfold normal. now rewrite lower_strip, lower_idem. }
  unfold match_alnum in M. destruct (span is_alnum (normal d)) as [g r] eqn:Sp.
  destruct (span_spec _ _ _ _ Sp) as (Hn & Hg & _).
  destruct g as [|c g]; [discriminate M|].
  split; [rewrite Hn; discriminate|].
  apply orb_true_iff in M as [M|M]; apply String.eqb_eq in M; subst r.
  - rewrite append_empty_r in Hn. apply lower_alnum_intro; [exact Hl|].
    rewrite Hn. exact Hg.
  - exfalso. assert (Hs : is_space newline = false).
    { apply (rstrip_last (lstrip (lower d)) (String c g) newline). exact Hn. }
    discriminate Hs.
Qed.

(** X6: a description whose normal form holds a well-formed id pattern
    (anywhere, also inside a word, and with any two quotes) is never
    answered by the class rule or the tag rule and never left not
    understood. *)
Theorem X6_id_pattern_is_found (d g : string) :
  quoted_occurrence "id" g (normal d) -> quote_free g = true -> g <> "" ->
  fired_rule d <> RClass /\ fired_rule d <> RTag /\ fired_rule d <> RNone.
Proof.
  intros Hocc Hg Hne.
  destruct (search_quoted_complete "id" g (normal d) Hocc Hg Hne) as [g' S].
  unfold fired_rule.
  destruct (chain_cases d) as [E|[E|[E|[E|[E|(_ & _ & _ & _ & _ & E)]]]]];
    rewrite E; cbn [fst]; try (repeat split; discriminate).
  destruct (pattern_cases (normal d))
    as [(v & _ & P)|[(g0 & _ & P)|[(g0 & C & _ & P)|[(C & _ & _ & P)|(C & _ & P)]]]];
    rewrite P; cbn [fst]; try (repeat split; discriminate); congruence.
Qed.

Lemma X3_id_rule_witness :
  exists g,
    description_to_selector "Get ID 'Main' now" = (Some ("#" ++ g), "text") /\
    g <> "" /\ quote_free g = true /\ quoted_occurrence "id" g (normal "Get ID 'Main' now").
Proof. apply (X3_id_rule "Get ID 'Main' now"). vm_compute. reflexivity. Defined.

Lemma X4_class_rule_witness :
  exists g,
    description_to_selector "class 'price tag'" = (Some ("." ++ replace_char " " "." g), "text") /\
    g <> "" /\ quote_free g = true /\ quoted_occurrence "class" g (normal "class 'price tag'") /\
    search_quoted "id" (normal "class 'price tag'") = None /\
    contains " " ("." ++ replace_char " " "." g) = false /\
    String.length ("." ++ replace_char " " "." g) = S (String.length g).
Proof. apply (X4_class_rule "class 'price tag'"). vm_compute. reflexivity. Defined.

Lemma X5_tag_rule_witness :
  description_to_selector "  DIV " = (Some (normal "  DIV "), "text") /\
  normal "  DIV " <> "" /\ lower_alnum (normal "  DIV ") = true.
Proof. apply (X5_tag_rule "  DIV "). vm_compute. reflexivity. Defined.

Lemma X6_id_pattern_is_found_witness :
  fired_rule ("the Grid 'x" ++ String dquote "") <> RClass /\
  fired_rule ("the Grid 'x" ++ String dquote "") <> RTag /\
  fired_rule ("the Grid 'x" ++ String dquote "") <> RNone.
Proof.
  apply (X6_id_pattern_is_found ("the Grid 'x" ++ String dquote "") "x").
  - exists "the gr", " "%char, squote, dquote, "". repeat split; vm_compute; reflexivity.
  - reflexivity.
  - discriminate.
Defined.

Example id_inside_a_word :
  description_to_selector ("the Grid 'x" ++ String dquote "") = (Some "#x", "text").
Proof. vm_compute. reflexivity. Qed.

(** ** The lists and the text block, further *)



Section ExtractorFurther.

Variable Table : Type.
Variable read_html : string -> string + list Table.
Variable select : string -> string -> list Tag.
Variable urljoin : option string -> string -> string.

Local Abbreviation run_click := (extract_click Table read_html select urljoin).
Local Abbreviation run_extract := (extract Table read_html select urljoin).
Local Abbreviation run_collect := (collect urljoin).

(** What one element adds, written out for each result type. *)
Lemma item_href base el :
  append_item urljoin "href" base [] el =
    if truthy (get el "href" "") then [urljoin base (get el "href" "")] else [].
Proof. unfold append_item. cbn [String.eqb Ascii.eqb Bool.eqb]. reflexivity. Qed.

Lemma item_text rt base el :
  String.eqb rt "src" = false -> String.eqb rt "href" = false ->
  append_item urljoin rt base [] el =
    if truthy (get_text el " " true) then [get_text el " " true] else [].
Proof. intros Hs Hh. unfold append_item. now rewrite Hs, Hh. Qed.

(** X7: the list built for the result type [href] holds, in document
    order, the [href] values that are not empty, each resolved with
    [urljoin] against the address of the page; an element with no [href]
    or an empty one adds nothing, and nothing else is filtered (a value
    with the base64 marker is kept). *)
Theorem X7_href_list (base : option string) (elements : list Tag) :
  run_collect "href" base elements =
    map (urljoin base) (List.filter truthy (map (fun el => get el "href" "") elements)) /\
  (forall el els, tag_attrs el !! "href" = None \/ tag_attrs el !! "href" = Some "" ->
     run_collect "href" base (el :: els) = run_collect "href" base els) /\
  (forall el els v, tag_attrs el !! "href" = Some v -> truthy v = true ->
     run_collect "href" base (el :: els) = urljoin base v :: run_collect "href" base els).
Proof.
  split; [|split].
  - induction elements as [|el els IH]; [reflexivity|].
    rewrite collect_cons, item_href, IH. cbn [map List.filter].
    destruct (truthy (get el "href" "")); reflexivity.
  - intros el els H. rewrite collect_cons, item_href. unfold get.
    destruct H as [-> | ->]; reflexivity.
  - intros el els v Hv Ht. rewrite collect_cons, item_href. unfold get.
    rewrite Hv, Ht. reflexivity.
Qed.

(** X8: for every result type but [src] and [href], the list holds the
    texts of the selected elements that are not empty, words joined by one
    space, in document order; neither [urljoin] nor the address of the
    page plays a part. *)
Theorem X8_text_list (rt : string) (base : option string) (elements : list Tag) :
  String.eqb rt "src" = false -> String.eqb rt "href" = false ->
  run_collect rt base elements =
    List.filter truthy (map (fun el => get_text el " " true) elements) /\
  (forall urljoin' base', collect urljoin' rt base' elements = run_collect rt base elements).
Proof.
  intros Hs Hh.
  assert (H : forall uj b,
             collect uj rt b elements =
             List.filter truthy (map (fun el => get_text el " " true) elements)).
  { intros uj b. induction elements as [|el els IH]; [reflexivity|].
    rewrite collect_cons, IH. unfold append_item. rewrite Hs, Hh.
    cbn [map List.filter]. destruct (truthy (get_text el " " true)); reflexivity. }
  split; [apply H|]. intros uj b. now rewrite !H.
Qed.

Lemma item_length rt base el : length (append_item urljoin rt base [] el) <= 1.
Proof.
  unfold append_item.
  destruct (String.eqb rt "src"); [destruct (truthy _ && negb _); simpl; lia|].
  destruct (String.eqb rt "href"); destruct (truthy _); simpl; lia.
Qed.

(** X9: the loop of lines 157 to 167 works element by element: the list
    for two runs of elements, one after the other, is the list for the
    first followed by the list for the second, and the list is never
    longer than the selection. *)
Theorem X9_collect_append (rt : string) (base : option string) (first second : list Tag) :
  run_collect rt base (first ++ second) =
    (run_collect rt base first ++ run_collect rt base second)%list /\
  length (run_collect rt base first) <= length first.
Proof.
  split.
  - induction first as [|el els IH]; [reflexivity|].
    rewrite <- app_comm_cons, !collect_cons, IH. now rewrite app_assoc.
  - induction first as [|el els IH]; [simpl; lia|].
    rewrite collect_cons, length_app. pose proof (item_length rt base el). simpl. lia.
Qed.

Lemma extract_keeps_url html sel rt (s : SessionState Table) :
  url (fst (run_extract html sel rt s)) = url s.
Proof.
  unfold extract. destruct sel as [css|]; [|reflexivity].
  destruct (truthy css); [|reflexivity].
  destruct (String.eqb rt "table_data"); [destruct (read_html html); reflexivity|].
  destruct (String.eqb rt "text_block"); reflexivity.
Qed.

(** X10: the Extract Data handler never changes the fetched page or its
    address, whatever the description and the state are; and when the form
    is shown (a page is there) it records the description typed. *)
Theorem X10_extract_keeps_page (d : string) (s : SessionState Table) :
  page_html (fst (run_click d s)) = page_html s /\
  url (fst (run_click d s)) = url s /\
  (truthy_opt (page_html s) = true -> description (fst (run_click d s)) = Some d).
Proof.
  destruct (page_html s) as [html|] eqn:Hp.
  2: { rewrite (click_no_page Table read_html select urljoin d s Hp). cbn [fst].
       rewrite Hp. repeat split. intros H. discriminate H. }
  destruct (truthy html) eqn:Hh.
  2: { rewrite (click_empty_page Table read_html select urljoin d s html Hp Hh). cbn [fst].
       rewrite Hp. repeat split. cbn [truthy_opt]. rewrite Hh. intros H. discriminate H. }
  destruct (truthy d) eqn:Hd.
  { destruct (description_to_selector d) as [[css|] rt] eqn:E.
    - rewrite (click_recognized Table read_html select urljoin s d html css rt Hp Hh Hd E).
      rewrite extract_keeps_page, extract_keeps_url.
      destruct s as [p u r t sl tl ds]. cbn [page_html] in Hp. subst p.
      rewrite clear_results_eq. repeat split. intros _.
      rewrite extract_eq. destruct (truthy css); [|reflexivity].
      destruct (String.eqb rt "table_data"); [destruct (read_html html); reflexivity|].
      destruct (String.eqb rt "text_block"); reflexivity.
    - rewrite (click_unrecognized Table read_html select urljoin s d html rt Hp Hh Hd E).
      cbn [fst page_html url description]. repeat split. exact Hp. }
  rewrite (click_blank Table read_html select urljoin d s html Hp Hh Hd).
  cbn [fst]. unfold set_description. cbn [page_html url description]. repeat split. exact Hp.
Qed.


Lemma append_assoc_str (a b c : string) : (a ++ b) ++ c = a ++ b ++ c.
Proof.
  induction a as [|x a IH]; [reflexivity|]. rewrite !app_cons, IH. reflexivity.
Qed.

(** X12: the text block of two runs of nodes, one after the other, is
    made of the two text blocks: joined by one blank line when both hold
    text, and the one that holds text otherwise. *)
Theorem X12_text_block_append (first second : list Tag) :
  text_block (first ++ second) =
    if truthy (text_block first) then
      if truthy (text_block second)
      then text_block first ++ sep_blank_line ++ text_block second
      else text_block first
    else text_block second.
Proof.
  induction first as [|el els IH]; [reflexivity|].
  rewrite <- app_comm_cons.
  destruct (truthy (get_text el "" true)) eqn:Hel.
  - apply truthy_true_iff in Hel.
    rewrite !(text_block_cons_populated el _ Hel), IH.
    apply truthy_true_iff in Hel. rewrite (truthy_append _ _ Hel).
    destruct (truthy (text_block els)) eqn:H1; destruct (truthy (text_block second)) eqn:H2.
    + rewrite (truthy_append _ (sep_blank_line ++ text_block second) H1).
      now rewrite !append_assoc_str.
    + rewrite H1. reflexivity.
    + now rewrite append_empty_r.
    + reflexivity.
  - apply truthy_false_iff in Hel. rewrite !(text_block_cons_empty el _ Hel). exact IH.
Qed.

End ExtractorFurther.

Lemma X8_text_list_witness :
  collect resolve_path "text" (Some "https://ex.com/")
    [paragraph [" one "; "two"]; paragraph ["  "]; paragraph ["three"]] =
  List.filter truthy
    (map (fun el => get_text el " " true)
       [paragraph [" one "; "two"]; paragraph ["  "]; paragraph ["three"]]).
Proof.
  apply (X8_text_list resolve_path "text" (Some "https://ex.com/")
           [paragraph [" one "; "two"]; paragraph ["  "]; paragraph ["three"]]);
    reflexivity.
Defined.

Example text_list_on_paragraphs :
  collect resolve_path "text" (Some "https://ex.com/")
    [paragraph [" one "; "two"]; paragraph ["  "]; paragraph ["three"]] = ["one two"; "three"].
Proof. vm_compute. reflexivity. Qed.


(** ** [get_page_source] *)

Lemma bind_call {A B : Type} (c : Call) (o : string + A) (f : A -> Run B) log :
  bind (call c o) f log =
    match o with
    | inr a => f a (log ++ [c])%list
    | inl e => (inl e, (log ++ [c])%list)
    end.
Proof. unfold bind, call. destruct o; reflexivity. Qed.

Lemma bind_unfold {A B : Type} (m : Run A) (f : A -> Run B) log :
  bind m f log =
    match m log with
    | (inr a, log') => f a log'
    | (inl e, log') => (inl e, log')
    end.
Proof. reflexivity. Qed.

(** The loop adds its own calls to the log, three per cycle at most, and
    nothing else. *)
Lemma scroll_cycles_run_log b range : forall k last log,
  exists ext,
    snd (scroll_cycles_run b range k last log) = (log ++ ext)%list /\
    forallb is_loop_call ext = true /\
    length ext <= 3 * length range /\
    length (List.filter is_scroll_call ext) <= length range.
Proof.
  induction range as [|x range IH]; intros k last log.
  - exists []. cbn. rewrite app_nil_r. repeat split; lia.
  - cbn [scroll_cycles_run]. rewrite bind_call.
    destruct (on_scroll b k) as [e|u].
    { exists [call_scroll]. cbn. repeat split; lia. }
    rewrite bind_call, bind_call.
    destruct (on_height b k) as [e|h].
    { exists [call_scroll; call_sleep 2; call_height]. cbn [snd].
      rewrite <- !app_assoc. cbn. repeat split; lia. }
    destruct (h =? last)%Z.
    { exists [call_scroll; call_sleep 2; call_height]. cbn [snd ret].
      rewrite <- !app_assoc. cbn. repeat split; lia. }
    destruct (IH (S k) h (((log ++ [call_scroll]) ++ [call_sleep 2]) ++ [call_height])%list)
      as (ext & Hlog & Hall & Hlen & Hscroll).
    exists ([call_scroll; call_sleep 2; call_height] ++ ext)%list.
    rewrite Hlog, <- !app_assoc. cbn. repeat split; try assumption; lia.
Qed.

(** With a browser that never fails, the loop makes the calls of
    [Fetch.scroll_cycles]. *)
Lemma scroll_cycles_run_steady b heights range : forall k last log,
  (forall j, on_height b j = inr (heights j)) -> (forall j, on_scroll b j = inr tt) ->
  scroll_cycles_run b range k last log =
    (inr tt, (log ++ map call_of_event (Fetch.scroll_cycles heights range k last))%list).
Proof.
  induction range as [|x range IH]; intros k last log Hh Hs.
  - cbn. now rewrite app_nil_r.
  - cbn [scroll_cycles_run Fetch.scroll_cycles].
    rewrite bind_call, Hs, bind_call, bind_call, Hh.
    destruct (heights k =? last)%Z.
    + cbn [ret map call_of_event]. now rewrite <- !app_assoc.
    + rewrite (IH (S k) (heights k) _ Hh Hs). cbn [map call_of_event].
      now rewrite <- !app_assoc.
Qed.

(** The function under the decorator with a browser that never fails. *)
Lemma uncached_success (b : Browser) (heights : nat -> Z) (address html : string) :
  on_launch b = inr tt -> on_get b address = inr tt ->
  (forall k, on_height b k = inr (heights k)) -> (forall k, on_scroll b k = inr tt) ->
  on_page_source b = inr html -> on_quit b = inr tt ->
  get_page_source_uncached b address =
    (html, [],
     (call_launch chrome_arguments :: call_get address ::
      map call_of_event (scroll_loop heights) ++ [call_page_source; call_quit])%list).
Proof.
  intros Hl Hg Hh Hs Hp Hq. unfold get_page_source_uncached, drive.
  rewrite bind_call, Hl, bind_call, Hg, bind_call, Hh.
  unfold bind at 1. rewrite (scroll_cycles_run_steady b heights _ _ _ _ Hh Hs).
  rewrite bind_call, Hp, bind_call, Hq. cbn [ret].
  unfold scroll_loop. cbn [map call_of_event app]. rewrite <- !app_assoc. reflexivity.
Qed.

Lemma loop_calls_only ext c :
  forallb is_loop_call ext = true -> is_loop_call c = false -> ~ In c ext.
Proof.
  intros H Hc Hin. rewrite forallb_forall in H. specialize (H c Hin). congruence.
Qed.

(** Every way the body of the [try] can end, with the calls made. *)
Lemma drive_cases b address :
  exists ext,
    forallb is_loop_call ext = true /\ length ext <= 15 /\
    length (List.filter is_scroll_call ext) <= 5 /\
    ((exists e, on_launch b = inl e /\
        drive b address [] = (inl e, [call_launch chrome_arguments])) \/
     (exists e, on_launch b = inr tt /\ on_get b address = inl e /\
        drive b address [] = (inl e, [call_launch chrome_arguments; call_get address])) \/
     (exists e, on_launch b = inr tt /\ on_height b 0 = inl e /\
        drive b address [] =
          (inl e, [call_launch chrome_arguments; call_get address; call_height])) \/
     (exists e, on_launch b = inr tt /\
        drive b address [] = (inl e, (call_launch chrome_arguments :: call_get address :: call_height :: ext))) \/
     (exists e, on_launch b = inr tt /\ on_page_source b = inl e /\
        drive b address [] = (inl e, (call_launch chrome_arguments :: call_get address :: call_height ::
                   ext ++ [call_page_source])%list)) \/
     (exists e html, on_launch b = inr tt /\ on_page_source b = inr html /\
        on_quit b = inl e /\
        drive b address [] = (inl e, (call_launch chrome_arguments :: call_get address :: call_height ::
                   ext ++ [call_page_source; call_quit])%list)) \/
     (exists html, on_launch b = inr tt /\ on_page_source b = inr html /\
        on_quit b = inr tt /\
        drive b address [] = (inr html, (call_launch chrome_arguments :: call_get address :: call_height ::
                   ext ++ [call_page_source; call_quit])%list))).
Proof.
  unfold drive. rewrite bind_call.
  destruct (on_launch b) as [e|[]].
  { exists []. repeat split; try (simpl; lia). left. now exists e. }
  rewrite bind_call. destruct (on_get b address) as [e|[]].
  { exists []. repeat split; try (simpl; lia). right; left. now exists e. }
  rewrite bind_call. destruct (on_height b 0) as [e|h].
  { exists []. repeat split; try (simpl; lia). right; right; left. now exists e. }
  rewrite bind_unfold.
  destruct (scroll_cycles_run_log b (seq 0 5) 1 h
              ((([] ++ [call_launch chrome_arguments]) ++ [call_get address])
                 ++ [call_height])%list)
    as (ext & Hlog & Hall & Hlen & Hscroll).
  exists ext. cbn [length seq] in Hlen, Hscroll.
  split; [exact Hall|]. split; [lia|]. split; [exact Hscroll|].
  destruct (scroll_cycles_run b (seq 0 5) 1 h _) as [[e|[]] log] eqn:L;
    cbn [snd] in Hlog; subst log.
  { do 3 right; left. now exists e. }
  rewrite bind_call. destruct (on_page_source b) as [e|html].
  { do 4 right; left. exists e. split; [reflexivity|]. split; [reflexivity|].
    cbn. rewrite <- ?app_assoc. reflexivity. }
  rewrite bind_call. destruct (on_quit b) as [e|[]].
  { do 5 right; left. exists e, html. repeat split. cbn. rewrite <- ?app_assoc. reflexivity. }
  do 6 right. exists html. repeat split. cbn [ret]. cbn. rewrite <- ?app_assoc. reflexivity.
Qed.

(** The function under the decorator, when it shows an error: no quit. *)
Lemma uncached_failure_leaves_browser (b : Browser) (address : string) :
  on_launch b = inr tt -> on_quit b = inr tt ->
  snd (fst (get_page_source_uncached b address)) <> [] ->
  In (call_launch chrome_arguments) (snd (get_page_source_uncached b address)) /\
  ~ In call_quit (snd (get_page_source_uncached b address)).
Proof.
  intros Hl Hq Herr. unfold get_page_source_uncached in *.
  destruct (drive_cases b address) as (ext & Hall & _ & _ & H).
  pose proof (loop_calls_only ext call_quit Hall eq_refl) as Hno.
  destruct H as [(e & C & _)|[(e & _ & _ & E)|[(e & _ & _ & E)|[(e & _ & E)|
                 [(e & _ & _ & E)|[(e & html & _ & _ & C & _)|(html & _ & _ & _ & E)]]]]]];
    try congruence; rewrite E in *; cbn [fst snd] in *.
  - split; [now left|]. intros [C|[C|[]]]; discriminate C.
  - split; [now left|]. intros [C|[C|[C|[]]]]; discriminate C.
  - split; [now left|]. intros [C|[C|[C|C]]]; try discriminate C. now apply Hno.
  - split; [now left|]. intros [C|[C|[C|C]]]; try discriminate C.
    apply in_app_or in C as [C|[C|[]]]; [now apply Hno|discriminate C].
  - now contradiction Herr.
Qed.

(** What the function under the decorator returns. *)
Lemma uncached_result (b : Browser) (address : string) :
  (fst (fst (get_page_source_uncached b address)) <> "" ->
     snd (fst (get_page_source_uncached b address)) = [] /\
     on_page_source b = inr (fst (fst (get_page_source_uncached b address))) /\
     on_quit b = inr tt) /\
  (snd (fst (get_page_source_uncached b address)) <> [] ->
     fst (fst (get_page_source_uncached b address)) = "" /\
     exists e, snd (fst (get_page_source_uncached b address)) =
                 [st_error ("An error occurred while scraping: " ++ e)]) /\
  (forall e, on_quit b = inl e -> fst (fst (get_page_source_uncached b address)) = "").
Proof.
  unfold get_page_source_uncached.
  destruct (drive_cases b address) as (ext & _ & _ & _ & H).
  destruct H as [(e & _ & E)|[(e & _ & _ & E)|[(e & _ & _ & E)|[(e & _ & E)|
                 [(e & _ & _ & E)|[(e & html & _ & _ & _ & E)|(html & _ & Hp & Hq & E)]]]]]];
    rewrite E; cbn [fst snd].
  7: { split; [intros _; now rewrite Hp, Hq|]. split; [intros C; now contradiction C|].
       intros e C. congruence. }
  all: split; [intros C; now contradiction C|]; split; [intros _; split; [reflexivity|now exists e]|];
    reflexivity.
Qed.

(** The calls of the function under the decorator. *)
Lemma uncached_bounded (b : Browser) (address : string) :
  length (snd (get_page_source_uncached b address)) <= 20 /\
  length (List.filter is_scroll_call (snd (get_page_source_uncached b address))) <= 5 /\
  hd_error (snd (get_page_source_uncached b address)) = Some (call_launch chrome_arguments).
Proof.
  unfold get_page_source_uncached.
  destruct (drive_cases b address) as (ext & _ & Hlen & Hscroll & H).
  destruct H as [(e & _ & E)|[(e & _ & _ & E)|[(e & _ & _ & E)|[(e & _ & E)|
                 [(e & _ & _ & E)|[(e & html & _ & _ & _ & E)|(html & _ & _ & _ & E)]]]]]];
    rewrite E; cbn [fst snd]; (split; [|split; [|reflexivity]]);
    cbn [app length List.filter is_scroll_call];
    rewrite ?List.filter_app, ?length_app; cbn [length List.filter is_scroll_call]; lia.
Qed.

(** C8, as the code has it: for every sequence of observed heights the
    loop performs at most five scroll-and-wait cycles and always ends (its
    trace has one entry for the first reading and three per cycle); every
    cycle but the last one performed read a height different from the
    reading before it; when fewer than five cycles ran, the last one read
    the same height as the reading before it; and the loop goes no further
    than the first cycle whose reading equals the one before.  The bound
    also holds when a call to the browser raises, which ends the loop and
    the fetch: the function under the decorator never scrolls more than
    five times and makes at most 20 calls. *)
Theorem C8_scroll_loop_bounded (heights : nat -> Z) :
  cycles heights <= 5 /\
  length (scroll_loop heights) = 1 + 3 * cycles heights /\
  (forall j, 1 <= j < cycles heights -> heights j <> heights (j - 1)) /\
  (cycles heights < 5 -> heights (cycles heights) = heights (cycles heights - 1)) /\
  (forall j, 1 <= j <= 5 -> heights j = heights (j - 1) -> cycles heights <= j) /\
  (forall b address,
     length (List.filter is_scroll_call (snd (get_page_source_uncached b address))) <= 5 /\
     length (snd (get_page_source_uncached b address)) <= 20).
Proof.
  destruct (scroll_loop_spec heights) as ([_ H5] & Hlen & Hne & Heq & Hstop).
  repeat (split; [assumption|]).
  intros b address. destruct (uncached_bounded b address) as (Hl & Hs & _). now split.
Qed.

Lemma C8_scroll_loop_bounded_witness : cycles heights_settle <= 3.
Proof.
  apply (proj1 (proj2 (proj2 (proj2 (proj2 (C8_scroll_loop_bounded heights_settle))))) 3).
  - lia.
  - reflexivity.
Defined.

(** *** The decorator *)

Lemma get_page_source_miss (b : Browser) (cache : Cache) (address : string) :
  cache !! address = None ->
  get_page_source b cache address =
    (get_page_source_uncached b address,
     <[address := fst (get_page_source_uncached b address)]> cache).
Proof.
  intros H. unfold get_page_source. rewrite H.
  destruct (get_page_source_uncached b address) as [[html messages] log]. reflexivity.
Qed.

Lemma get_page_source_hit (b : Browser) (cache : Cache) (address html : string) messages :
  cache !! address = Some (html, messages) ->
  get_page_source b cache address = ((html, messages, []), cache).
Proof. intros H. unfold get_page_source. now rewrite H. Qed.

Lemma sound_empty : sound ∅.
Proof. intros a html messages H. rewrite lookup_empty in H. discriminate H. Qed.

(** What a call shows and returns goes together, and the cache stays
    sound. *)
Lemma fetch_sound (b : Browser) (cache : Cache) (address : string) :
  sound cache ->
  (snd (fst (fst (get_page_source b cache address))) = [] \/
   (fst (fst (fst (get_page_source b cache address))) = "" /\
    exists e, snd (fst (fst (get_page_source b cache address))) =
                [st_error ("An error occurred while scraping: " ++ e)])) /\
  sound (snd (get_page_source b cache address)).
Proof.
  intros Hc. destruct (cache !! address) as [[html messages]|] eqn:H.
  - rewrite (get_page_source_hit b cache address html messages H). cbn [fst snd].
    split; [exact (Hc address html messages H)|exact Hc].
  - rewrite (get_page_source_miss b cache address H). cbn [fst snd].
    destruct (uncached_result b address) as (_ & He & _).
    destruct (get_page_source_uncached b address) as [[html messages] log].
    cbn [fst snd] in *.
    assert (S : messages = [] \/
                (html = "" /\
                 exists e, messages = [st_error ("An error occurred while scraping: " ++ e)])).
    { destruct messages as [|m ms]; [now left|right]. apply He. discriminate. }
    split; [exact S|].
    intros a html' messages' Ha. apply lookup_insert_Some in Ha as [[_ Ha]|[_ Ha]].
    + inversion Ha. subst. exact S.
    + exact (Hc a html' messages' Ha).
Qed.

(** X13: on an address that is not in the cache and with a browser that
    never fails, [get_page_source] returns the page source, shows no
    message and makes these calls in order: the launch with the five fixed
    arguments, the load of the address, the scroll loop of lines 30 to 36,
    the read of the page source and the quit; and the page is stored in
    the cache under the address. *)
Theorem X13_fetch_success
    (b : Browser) (heights : nat -> Z) (cache : Cache) (address html : string) :
  cache !! address = None ->
  on_launch b = inr tt -> on_get b address = inr tt ->
  (forall k, on_height b k = inr (heights k)) -> (forall k, on_scroll b k = inr tt) ->
  on_page_source b = inr html -> on_quit b = inr tt ->
  get_page_source b cache address =
    ((html, [],
      (call_launch chrome_arguments :: call_get address ::
       map call_of_event (scroll_loop heights) ++ [call_page_source; call_quit])%list),
     <[address := (html, [])]> cache).
Proof.
  intros Hm Hl Hg Hh Hs Hp Hq. rewrite (get_page_source_miss b cache address Hm).
  rewrite (uncached_success b heights address html Hl Hg Hh Hs Hp Hq). reflexivity.
Qed.

Lemma X13_fetch_success_witness :
  get_page_source (steady_browser heights_settle links_page) ∅ "https://ex.com/" =
    ((links_page, [],
      (call_launch chrome_arguments :: call_get "https://ex.com/" ::
       map call_of_event (scroll_loop heights_settle) ++ [call_page_source; call_quit])%list),
     <["https://ex.com/" := (links_page, [])]> ∅).
Proof.
  apply (X13_fetch_success (steady_browser heights_settle links_page) heights_settle ∅);
    reflexivity.
Defined.

(** X14: when a call of [get_page_source] that is not answered from the
    cache shows an error although the browser was launched and a quit
    would have gone through, it never called [driver.quit()]: the browser
    it launched is left running. *)
Theorem X14_failure_leaves_browser (b : Browser) (cache : Cache) (address : string) :
  cache !! address = None ->
  on_launch b = inr tt -> on_quit b = inr tt ->
  snd (fst (fst (get_page_source b cache address))) <> [] ->
  In (call_launch chrome_arguments) (snd (fst (get_page_source b cache address))) /\
  ~ In call_quit (snd (fst (get_page_source b cache address))).
Proof.
  intros Hm Hl Hq. rewrite (get_page_source_miss b cache address Hm). cbn [fst snd].
  apply (uncached_failure_leaves_browser b address Hl Hq).
Qed.

Lemma X14_failure_leaves_browser_witness :
  In (call_launch chrome_arguments)
     (snd (fst (get_page_source (crashing_browser "tab crashed") ∅ "https://ex.com/"))) /\
  ~ In call_quit
      (snd (fst (get_page_source (crashing_browser "tab crashed") ∅ "https://ex.com/"))).
Proof.
  apply (X14_failure_leaves_browser (crashing_browser "tab crashed") ∅ "https://ex.com/");
    [reflexivity|reflexivity|reflexivity|discriminate].
Defined.

(** X15: what [get_page_source] returns, with a cache filled by earlier
    calls.  A message is shown only with the empty result, and it is one
    error that ends with the text of an exception; a result that is not
    empty comes with no message.  When the call is not answered from the
    cache, a result that is not empty is the page source the browser gave
    and the quit has gone through; and when the quit raises, the page
    source already read is dropped and the result is empty.  The cache
    the call leaves is again one that calls have filled. *)
Theorem X15_fetch_result (b : Browser) (cache : Cache) (address : string) :
  sound cache ->
  (snd (fst (fst (get_page_source b cache address))) <> [] ->
     fst (fst (fst (get_page_source b cache address))) = "" /\
     exists e, snd (fst (fst (get_page_source b cache address))) =
                 [st_error ("An error occurred while scraping: " ++ e)]) /\
  (fst (fst (fst (get_page_source b cache address))) <> "" ->
     snd (fst (fst (get_page_source b cache address))) = []) /\
  (cache !! address = None ->
     (fst (fst (fst (get_page_source b cache address))) <> "" ->
        on_page_source b = inr (fst (fst (fst (get_page_source b cache address)))) /\
        on_quit b = inr tt) /\
     (forall e, on_quit b = inl e ->
        fst (fst (fst (get_page_source b cache address))) = "")) /\
  sound (snd (get_page_source b cache address)).
Proof.
  intros Hc. destruct (fetch_sound b cache address Hc) as (S & Hs).
  split; [|split; [|split; [|exact Hs]]].
  - intros Hne. destruct S as [S|S]; [now contradiction Hne|exact S].
  - intros Hne. destruct S as [S|[S _]]; [exact S|now contradiction Hne].
  - intros Hm. rewrite (get_page_source_miss b cache address Hm). cbn [fst snd].
    destruct (uncached_result b address) as (Hr & _ & Hq).
    split; [intros Hne; now destruct (Hr Hne) as (_ & Hp & Hq')|exact Hq].
Qed.

Lemma X15_fetch_result_witness :
  fst (fst (fst (get_page_source
              (mkBrowser (inr tt) (fun _ => inr tt) (fun _ => inr 900%Z) (fun _ => inr tt)
                 (inr links_page) (inl "session deleted"))
              ∅ "https://ex.com/"))) = "".
Proof.
  apply (proj2 (proj1 (proj2 (proj2 (X15_fetch_result
           (mkBrowser (inr tt) (fun _ => inr tt) (fun _ => inr 900%Z) (fun _ => inr tt)
              (inr links_page) (inl "session deleted")) ∅ "https://ex.com/" sound_empty)))
           eq_refl) "session deleted").
  reflexivity.
Defined.

(** X16: whatever the browser does and whatever the cache holds,
    [get_page_source] ends after at most 20 calls, at most 5 of them
    scrolls.  A call answered from the cache makes no call at all; any
    other starts with the launch with the five fixed arguments. *)
Theorem X16_fetch_bounded (b : Browser) (cache : Cache) (address : string) :
  length (snd (fst (get_page_source b cache address))) <= 20 /\
  length (List.filter is_scroll_call (snd (fst (get_page_source b cache address)))) <= 5 /\
  (forall entry, cache !! address = Some entry ->
     snd (fst (get_page_source b cache address)) = []) /\
  (cache !! address = None ->
     hd_error (snd (fst (get_page_source b cache address))) =
       Some (call_launch chrome_arguments)).
Proof.
  destruct (cache !! address) as [[html messages]|] eqn:H.
  - rewrite (get_page_source_hit b cache address html messages H). cbn [fst snd].
    cbn [length List.filter]. repeat split; try lia. intros C. discriminate C.
  - rewrite (get_page_source_miss b cache address H). cbn [fst snd].
    destruct (uncached_bounded b address) as (Hl & Hs & Hh).
    split; [exact Hl|]. split; [exact Hs|]. split; [intros entry C; discriminate C|].
    intros _. exact Hh.
Qed.


(** A failed fetch is answered from the cache afterwards, also when the
    browser has recovered. *)
Example failed_fetch_is_replayed :
  fst (get_page_source (steady_browser heights_settle links_page)
         (snd (get_page_source (crashing_browser "tab crashed") ∅ "https://ex.com/"))
         "https://ex.com/") =
  ("", [st_error "An error occurred while scraping: tab crashed"], []).
Proof. vm_compute. reflexivity. Qed.

(** ** The script *)

(** A fetch that shows a message returned the empty page. *)
Lemma fetch_error_empty b cache address :
  sound cache ->
  snd (fst (fst (get_page_source b cache address))) <> [] ->
  exists e log cache',
    get_page_source b cache address =
      (("", [st_error ("An error occurred while scraping: " ++ e)], log), cache').
Proof.
  intros Hc Hne. destruct (fetch_sound b cache address Hc) as ([S|(S & e & M)] & _);
    [now contradiction Hne|].
  destruct (get_page_source b cache address) as [[[html messages] log] cache'].
  cbn [fst snd] in *. subst. now exists e, log, cache'.
Qed.

Lemma str_nat_inj n m : str_nat n = str_nat m -> n = m.
Proof.
  unfold str_nat. intros H. apply Unsigned.to_uint_inj.
  assert (E : Some (Nat.to_uint n) = Some (Nat.to_uint m)).
  { rewrite <- !NilEmpty.usu. now rewrite H. }
  now inversion E.
Qed.

Lemma append_inj_l (p a b : string) : p ++ a = p ++ b -> a = b.
Proof.
  induction p as [|c p IH]; intros H; [exact H|].
  rewrite !app_cons in H. inversion H. now apply IH.
Qed.

Lemma length_append_str (a b : string) :
  String.length (a ++ b) = String.length a + String.length b.
Proof.
  induction a as [|c a IH]; [reflexivity|].
  rewrite app_cons. cbn [String.length]. now rewrite IH.
Qed.

Lemma append_inj_r (a b p : string) : a ++ p = b ++ p -> a = b.
Proof.
  revert b. induction a as [|x a IH]; intros b H.
  - destruct b as [|y b]; [reflexivity|]. exfalso.
    assert (L : String.length p = String.length (String y b ++ p)) by (now rewrite <- H).
    rewrite app_cons in L. cbn [String.length] in L.
    rewrite length_append_str in L. lia.
  - destruct b as [|y b].
    + exfalso.
      assert (L : String.length (String x a ++ p) = String.length p) by (now rewrite H).
      rewrite app_cons in L. cbn [String.length] in L.
      rewrite length_append_str in L. lia.
    + rewrite !app_cons in H. inversion H. f_equal. now apply IH.
Qed.

Section ScriptProperties.

Variable Table : Type.
Variable read_html : string -> string + list Table.
Variable select : string -> string -> list Tag.
Variable urljoin : option string -> string -> string.
Variable table_csv : Table -> string.
Variable results_csv : list string -> string.

Local Abbreviation run_click := (extract_click Table read_html select urljoin).
Local Abbreviation render := (render_results Table table_csv results_csv).
Local Abbreviation run_all :=
  (run_script Table read_html select urljoin table_csv results_csv).
(** The session and the page a run leaves. *)
Local Abbreviation run b inp cache s := (fst (run_all b inp cache s)) (only parsing).

(** X17: a press on Scrape Website with an address that is not empty
    replaces the page and its address and empties the three result fields
    and the description, whatever the session held and whatever the fetch
    gave (from the browser or from the cache), so the Results part is no
    longer shown; only the last selector stays, and the cache is the one
    the fetch leaves.  With an empty address nothing changes, the cache
    neither, and a warning is shown. *)
Theorem X17_scrape_clears_results
    (b : Browser) (cache : Cache) (address : string) (s : SessionState Table) :
  (truthy address = true ->
     page_html (fst (fst (scrape_click Table b cache address s))) =
       Some (fst (fst (fst (get_page_source b cache address)))) /\
     url (fst (fst (scrape_click Table b cache address s))) = Some address /\
     populated (fst (fst (scrape_click Table b cache address s))) = 0 /\
     description (fst (fst (scrape_click Table b cache address s))) = None /\
     selector (fst (fst (scrape_click Table b cache address s))) = selector s /\
     render (fst (fst (scrape_click Table b cache address s))) = [] /\
     snd (fst (scrape_click Table b cache address s)) =
       snd (fst (fst (get_page_source b cache address))) /\
     snd (scrape_click Table b cache address s) = snd (get_page_source b cache address)) /\
  (truthy address = false ->
     scrape_click Table b cache address s =
       ((s, [st_warning "Please enter a URL."]), cache)).
Proof.
  unfold scrape_click. split; intros H; rewrite H; [|reflexivity].
  destruct (get_page_source b cache address) as [[[html messages] log] cache']. cbn.
  repeat split.
Qed.

(** X18: a fetch that failed switches extraction off, whatever earlier
    calls left in the cache (with the empty cache this is the first fetch
    of the server).  The run of the
    press shows, under the top of the page, the one error of the fetch and
    neither the form nor results; the page stored is empty; and in every
    later run without a new press on Scrape Website the form is not
    shown, a press on Extract Data does nothing and the page stays at its
    top part. *)
Theorem X18_failed_fetch_disables_extraction
    (b : Browser) (inp : Inputs) (cache : Cache) (s : SessionState Table) :
  sound cache ->
  scrape_pressed inp = true -> truthy (url_input inp) = true ->
  snd (fst (fst (get_page_source b cache (url_input inp)))) <> [] ->
  exists e,
    run b inp cache s =
      (mkState (Some "") (Some (url_input inp)) None None (selector s) None None,
       (page_top Table ++
        [st_message (st_error ("An error occurred while scraping: " ++ e))])%list) /\
    (forall b' inp' cache', scrape_pressed inp' = false ->
       run b' inp' cache' (fst (run b inp cache s)) =
         (fst (run b inp cache s), page_top Table)) /\
    (forall d, run_click d (fst (run b inp cache s)) = (fst (run b inp cache s), [])).
Proof.
  intros Hc Hs Hu Herr.
  destruct (fetch_error_empty b cache (url_input inp) Hc Herr) as (e & log & cache1 & E).
  exists e.
  assert (R : run b inp cache s =
      (mkState (Some "") (Some (url_input inp)) None None (selector s) None None,
       (page_top Table ++
        [st_message (st_error ("An error occurred while scraping: " ++ e))])%list)).
  { unfold run_script, scrape_click. rewrite Hs, Hu, E. cbn. reflexivity. }
  rewrite R. split; [reflexivity|]. cbn [fst]. split.
  - intros b' inp' cache' Hs'. unfold run_script. rewrite Hs'. reflexivity.
  - intros d. reflexivity.
Qed.

(** A run in which only Extract Data is pressed, on a page that is
    there: the handler, then the form, its messages and the results. *)
Lemma run_extract_all (b : Browser) (inp : Inputs) (cache : Cache)
    (s : SessionState Table) html :
  scrape_pressed inp = false -> extract_pressed inp = true ->
  page_html s = Some html -> truthy html = true ->
  run_all b inp cache s =
    ((fst (run_click (description_input inp) s),
      (page_top Table ++ extract_form Table s ++
       map st_message (snd (run_click (description_input inp) s)) ++
       render (fst (run_click (description_input inp) s)))%list), cache).
Proof.
  intros Hs He Hp Hh. unfold run_script. rewrite Hs, He.
  unfold truthy_opt. rewrite Hp, Hh.
  destruct (extract_click Table read_html select urljoin (description_input inp) s)
    as [s2 messages].
  cbn [fst snd map app]. now rewrite <- app_assoc.
Qed.

(** The session and the page of that run. *)
Lemma run_extract_pressed (b : Browser) (inp : Inputs) (cache : Cache)
    (s : SessionState Table) html :
  scrape_pressed inp = false -> extract_pressed inp = true ->
  page_html s = Some html -> truthy html = true ->
  run b inp cache s =
    (fst (run_click (description_input inp) s),
     (page_top Table ++ extract_form Table s ++
      map st_message (snd (run_click (description_input inp) s)) ++
      render (fst (run_click (description_input inp) s)))%list).
Proof.
  intros Hs He Hp Hh. now rewrite (run_extract_all b inp cache s html Hs He Hp Hh).
Qed.

(** A run in which no button is pressed, on a page that is there. *)
Lemma run_idle (b : Browser) (inp : Inputs) (cache : Cache) (s : SessionState Table) html :
  scrape_pressed inp = false -> extract_pressed inp = false ->
  page_html s = Some html -> truthy html = true ->
  run b inp cache s =
    (set_description Table (Some (description_input inp)) s,
     (page_top Table ++ extract_form Table s ++
      render (set_description Table (Some (description_input inp)) s))%list).
Proof.
  intros Hs He Hp Hh. unfold run_script. rewrite Hs, He.
  unfold truthy_opt. rewrite Hp, Hh. reflexivity.
Qed.

(** The head of the Results part. *)
Local Abbreviation results_head d css :=
  [st_markdown "---"; st_header "📊 Results"; st_info (query_line (Some d) (Some css))]
  (only parsing).


(** X20: a press on Extract Data with a description understood as a text
    block shows, after the form, the Results header, the query line, one
    text area with the joined text and one TXT download of the same text.
    When none of the selected elements has text the text is empty: the
    page still shows the empty text area and offers the empty file, and
    no warning. *)
Theorem X20_text_results_page
    (b : Browser) (inp : Inputs) (cache : Cache) (s : SessionState Table) (html css : string) :
  scrape_pressed inp = false -> extract_pressed inp = true ->
  page_html s = Some html -> truthy html = true ->
  truthy (description_input inp) = true ->
  description_to_selector (description_input inp) = (Some css, "text_block") ->
  snd (run b inp cache s) =
    (page_top Table ++ extract_form Table s ++
     results_head (description_input inp) css ++
     [st_text_area "Extracted Text" (text_block (select html css));
      st_download_button "📥 Download as TXT" (text_block (select html css))
        "scraped_text.txt" None None])%list /\
  (Forall (fun el => get_text el "" true = "") (select html css) ->
     text_block (select html css) = "").
Proof.
  intros Hs He Hp Hh Hd E.
  rewrite (run_extract_pressed b inp cache s html Hs He Hp Hh).
  rewrite (click_text_block Table read_html select urljoin s _ html css Hp Hh Hd E).
  split; [reflexivity|].
  intros H. induction H as [|el els Hel _ IH]; [reflexivity|].
  now rewrite (text_block_cons_empty el els Hel).
Qed.

(** *** Keys and files of the table downloads *)

Lemma keys_app (p1 p2 : list (Output Table)) : keys (p1 ++ p2) = (keys p1 ++ keys p2)%list.
Proof. unfold keys. apply omap_app. Qed.

Lemma files_app (p1 p2 : list (Output Table)) :
  files (p1 ++ p2) = (files p1 ++ files p2)%list.
Proof. unfold files. apply omap_app. Qed.

Lemma downloads_app (p1 p2 : list (Output Table)) :
  downloads (p1 ++ p2) = (downloads p1 ++ downloads p2)%list.
Proof. unfold downloads. apply List.filter_app. Qed.

Lemma keys_page_top : keys (page_top Table) = [].
Proof. reflexivity. Qed.

Lemma keys_form (s : SessionState Table) :
  keys (extract_form Table s) = ["description_input"].
Proof. reflexivity. Qed.

Lemma files_page_top : files (page_top Table) = [].
Proof. reflexivity. Qed.

Lemma files_form (s : SessionState Table) : files (extract_form Table s) = [].
Proof. reflexivity. Qed.

Lemma downloads_page_top : downloads (page_top Table) = [].
Proof. reflexivity. Qed.

Lemma downloads_form (s : SessionState Table) : downloads (extract_form Table s) = [].
Proof. reflexivity. Qed.

Lemma keys_skip (o : Output Table) p : widget_key o = None -> keys (o :: p) = keys p.
Proof. intros H. unfold keys. cbn [omap list_omap]. now rewrite H. Qed.

Lemma files_skip (o : Output Table) p : download_file o = None -> files (o :: p) = files p.
Proof. intros H. unfold files. cbn [omap list_omap]. now rewrite H. Qed.

Lemma downloads_skip (o : Output Table) p :
  is_download o = false -> downloads (o :: p) = downloads p.
Proof. intros H. unfold downloads. cbn [List.filter]. now rewrite H. Qed.

Lemma render_tables_keys i tables :
  keys (render_tables Table table_csv i tables) =
    map (fun j => "download_table_" ++ str_nat j) (seq i (length tables)).
Proof.
  revert i. induction tables as [|t tables IH]; intros i; [reflexivity|].
  cbn [render_tables length seq map]. rewrite <- IH. reflexivity.
Qed.

Lemma render_tables_files i tables :
  files (render_tables Table table_csv i tables) =
    map (fun j => "table_" ++ str_nat (j + 1) ++ ".csv") (seq i (length tables)).
Proof.
  revert i. induction tables as [|t tables IH]; intros i; [reflexivity|].
  cbn [render_tables length seq map]. rewrite <- IH. reflexivity.
Qed.

Lemma render_tables_downloads i tables :
  length (downloads (render_tables Table table_csv i tables)) = length tables.
Proof.
  revert i. induction tables as [|t tables IH]; intros i; [reflexivity|].
  cbn [render_tables length]. rewrite <- (IH (S i)). reflexivity.
Qed.

Lemma NoDup_map_inj {A B : Type} (f : A -> B) (l : list A) :
  (forall x y, f x = f y -> x = y) -> List.NoDup l -> List.NoDup (map f l).
Proof.
  intros Hf H. induction H as [|x l Hx _ IH]; [constructor|].
  cbn [map]. constructor; [|exact IH].
  intros Hin. apply List.in_map_iff in Hin as (y & Hy & Hin).
  apply Hf in Hy. subst y. exact (Hx Hin).
Qed.

Lemma table_keys_NoDup i n :
  List.NoDup ("description_input" ::
              map (fun j => "download_table_" ++ str_nat j) (seq i n)).
Proof.
  constructor.
  - intros Hin. apply List.in_map_iff in Hin as (j & Hj & _).
    change ("download_table_" ++ str_nat j)
      with (String "d" (String "o" ("wnload_table_" ++ str_nat j))) in Hj.
    discriminate Hj.
  - apply NoDup_map_inj; [|apply List.seq_NoDup].
    intros x y H. apply append_inj_l in H. now apply str_nat_inj.
Qed.

Lemma table_files_NoDup i n :
  List.NoDup (map (fun j => "table_" ++ str_nat (j + 1) ++ ".csv") (seq i n)).
Proof.
  apply NoDup_map_inj; [|apply List.seq_NoDup].
  intros x y H. apply append_inj_l, append_inj_r, str_nat_inj in H. lia.
Qed.

(** X21: a press on Extract Data with a description that mentions a
    table, when the table parser returns a list of tables.  With an empty
    list the Results header and the query line are shown with nothing
    under them.  Otherwise the number of tables is stated and every table
    gets a title, a grid and one download button.  The keys the script
    gives to widgets on this page (the one of the description box and
    download_table_i for table i) are pairwise distinct, and so are the
    file names table_1.csv, table_2.csv and so on. *)
Theorem X21_tables_page
    (b : Browser) (inp : Inputs) (cache : Cache) (s : SessionState Table) (html : string)
    (tables : list Table) :
  scrape_pressed inp = false -> extract_pressed inp = true ->
  page_html s = Some html -> truthy html = true ->
  truthy (description_input inp) = true ->
  contains "table" (normal (description_input inp)) = true ->
  read_html html = inr tables ->
  (tables = [] ->
     snd (run b inp cache s) =
       (page_top Table ++ extract_form Table s ++
        results_head (description_input inp) "table")%list) /\
  (tables <> [] ->
     snd (run b inp cache s) =
       (page_top Table ++ extract_form Table s ++
        results_head (description_input inp) "table" ++
        st_markdown ("**Found " ++ str_nat (length tables) ++ " table(s).**") ::
        render_tables Table table_csv 0 tables)%list) /\
  keys (snd (run b inp cache s)) =
    "description_input" ::
    map (fun i => "download_table_" ++ str_nat i) (seq 0 (length tables)) /\
  List.NoDup (keys (snd (run b inp cache s))) /\
  files (snd (run b inp cache s)) =
    map (fun i => "table_" ++ str_nat (i + 1) ++ ".csv") (seq 0 (length tables)) /\
  List.NoDup (files (snd (run b inp cache s))) /\
  length (downloads (snd (run b inp cache s))) = length tables.
Proof.
  intros Hs He Hp Hh Hd Ht Hr.
  rewrite (run_extract_pressed b inp cache s html Hs He Hp Hh).
  rewrite (click_table_data Table read_html select urljoin s _ html Hp Hh Hd Ht), Hr.
  cbn [fst snd map app].
  assert (R : render (mkState (Some html) (url s) None None (Some "table") (Some tables)
                        (Some (description_input inp))) =
              (results_head (description_input inp) "table" ++
               match tables with
               | [] => []
               | _ :: _ =>
                   st_markdown ("**Found " ++ str_nat (length tables) ++ " table(s).**") ::
                   render_tables Table table_csv 0 tables
               end)%list).
  { destruct tables; reflexivity. }
  rewrite R. clear R.
  rewrite !keys_app, !files_app, !downloads_app, !length_app.
  rewrite keys_page_top, keys_form, files_page_top, files_form,
    downloads_page_top, downloads_form.
  change (keys (results_head (description_input inp) "table")) with (@nil string).
  change (files (results_head (description_input inp) "table")) with (@nil string).
  change (downloads (results_head (description_input inp) "table"))
    with (@nil (Output Table)).
  destruct tables as [|t tables].
  - split; [reflexivity|]. split; [intros C; now contradiction C|].
    split; [reflexivity|]. split; [apply (table_keys_NoDup 0 0)|].
    split; [reflexivity|]. split; [constructor|reflexivity].
  - split; [discriminate|]. split; [reflexivity|].
    rewrite (keys_skip (st_markdown _)), (files_skip (st_markdown _)),
      (downloads_skip (st_markdown _)) by reflexivity.
    rewrite render_tables_keys, render_tables_files, render_tables_downloads.
    split; [reflexivity|]. split; [apply table_keys_NoDup|].
    split; [reflexivity|]. split; [apply table_files_NoDup|reflexivity].
Qed.

(** X22: a press on Extract Data that fails takes the Results part off
    the page.  When the description is not understood, or when it mentions
    a table and the table parser raises, the page ends with the form and
    the one error, whatever results the session held before, and the
    three result fields are empty. *)
Theorem X22_failed_extraction_page
    (b : Browser) (inp : Inputs) (cache : Cache) (s : SessionState Table) (html : string) :
  scrape_pressed inp = false -> extract_pressed inp = true ->
  page_html s = Some html -> truthy html = true ->
  truthy (description_input inp) = true ->
  (forall rt, description_to_selector (description_input inp) = (None, rt) ->
     run b inp cache s =
       (mkState (Some html) (url s) None None (selector s) None
          (Some (description_input inp)),
        (page_top Table ++ extract_form Table s ++
         [st_message (st_error "Could not understand your description.")])%list)) /\
  (forall e, contains "table" (normal (description_input inp)) = true ->
     read_html html = inl e ->
     run b inp cache s =
       (mkState (Some html) (url s) None None (Some "table") None
          (Some (description_input inp)),
        (page_top Table ++ extract_form Table s ++
         [st_message (st_error ("Could not parse tables. Error: " ++ e))])%list)).
Proof.
  intros Hs He Hp Hh Hd. rewrite (run_extract_pressed b inp cache s html Hs He Hp Hh). split.
  - intros rt E.
    rewrite (click_unrecognized Table read_html select urljoin s _ html rt Hp Hh Hd E), Hp.
    reflexivity.
  - intros e Ht Hr.
    rewrite (click_table_data Table read_html select urljoin s _ html Hp Hh Hd Ht), Hr.
    reflexivity.
Qed.

Lemma render_shows_query (s : SessionState Table) :
  1 <= populated s ->
  In (st_info (query_line (description s) (selector s))) (render s).
Proof.
  destruct s as [p u r t sl tl ds]. unfold populated, render_results, query_line.
  cbn [results_df results_text table_list description selector].
  destruct r, t, tl; cbn [is_set]; intros H; try lia; right; right; left; reflexivity.
Qed.

(** X23: results are labelled with the text in the description box, not
    with the description they were extracted for.  In a run where Scrape
    Website is not pressed and either Extract Data is not pressed or the
    description is empty, the results and the selector in the session stay
    as they are, the description becomes the text in the box, and when a
    result is there the query line shows that text beside the old
    selector. *)
Theorem X23_results_relabelled
    (b : Browser) (inp : Inputs) (cache : Cache) (s : SessionState Table) (html : string) :
  scrape_pressed inp = false ->
  page_html s = Some html -> truthy html = true ->
  extract_pressed inp = false \/ truthy (description_input inp) = false ->
  1 <= populated s ->
  results_df (fst (run b inp cache s)) = results_df s /\
  results_text (fst (run b inp cache s)) = results_text s /\
  table_list (fst (run b inp cache s)) = table_list s /\
  selector (fst (run b inp cache s)) = selector s /\
  description (fst (run b inp cache s)) = Some (description_input inp) /\
  In (st_info (query_line (Some (description_input inp)) (selector s)))
     (snd (run b inp cache s)).
Proof.
  intros Hs Hp Hh Hc Hn.
  assert (Q : In (st_info (query_line (Some (description_input inp)) (selector s)))
                (render (set_description Table (Some (description_input inp)) s))).
  { apply (render_shows_query (set_description Table (Some (description_input inp)) s)).
    exact Hn. }
  destruct (extract_pressed inp) eqn:He.
  - destruct Hc as [Hc|Hd]; [discriminate Hc|].
    rewrite (run_extract_pressed b inp cache s html Hs He Hp Hh).
    rewrite (click_blank Table read_html select urljoin _ s html Hp Hh Hd).
    cbn [fst snd]. repeat (split; [reflexivity|]).
    apply in_or_app. right. apply in_or_app. right. apply in_or_app. now right.
  - rewrite (run_idle b inp cache s html Hs He Hp Hh).
    cbn [fst snd]. repeat (split; [reflexivity|]).
    apply in_or_app. right. apply in_or_app. now right.
Qed.

Lemma fetch_page_no_message b cache address :
  sound cache ->
  truthy (fst (fst (fst (get_page_source b cache address)))) = true ->
  snd (fst (fst (get_page_source b cache address))) = [].
Proof.
  intros Hc Ht. destruct (fetch_sound b cache address Hc) as ([S|(S & _)] & _); [exact S|].
  rewrite S in Ht. discriminate Ht.
Qed.

(** X24: the run of a press on Scrape Website whose fetch gave a page
    that is not empty, from the browser or from a cache that earlier calls
    have filled.  The session holds the page and its address, no
    result and the old selector; the page shows the top and the form and
    no message and no results.  The description is not left empty: the
    form is shown in the same run, so it is the text of the description
    box. *)
Theorem X24_scrape_run (b : Browser) (inp : Inputs) (cache : Cache) (s : SessionState Table) :
  sound cache ->
  scrape_pressed inp = true -> extract_pressed inp = false ->
  truthy (url_input inp) = true ->
  truthy (fst (fst (fst (get_page_source b cache (url_input inp))))) = true ->
  fst (run b inp cache s) =
    mkState (Some (fst (fst (fst (get_page_source b cache (url_input inp))))))
      (Some (url_input inp)) None None (selector s) None
      (Some (description_input inp)) /\
  snd (run b inp cache s) =
    (page_top Table ++ extract_form Table (fst (run b inp cache s)))%list.
Proof.
  intros Hc Hs He Hu Hh.
  pose proof (fetch_page_no_message b cache (url_input inp) Hc Hh) as Hm.
  unfold run_script, scrape_click. rewrite Hs, He, Hu.
  destruct (get_page_source b cache (url_input inp)) as [[[html messages] log] cache'].
  cbn [fst snd] in Hh, Hm. subst messages.
  cbn [truthy_opt page_html]. rewrite Hh. cbn [fst snd]. split; [reflexivity|].
  unfold render_results, set_description.
  cbn [results_df results_text table_list page_html url map app].
  now rewrite app_nil_r.
Qed.

(** What a press on Scrape Website leaves when the fetch gave the empty
    page. *)
Lemma run_failed_scrape (b : Browser) (inp : Inputs) (cache cache1 : Cache)
    (s : SessionState Table) messages log :
  scrape_pressed inp = true -> truthy (url_input inp) = true ->
  get_page_source b cache (url_input inp) = (("", messages, log), cache1) ->
  run_all b inp cache s =
    ((mkState (Some "") (Some (url_input inp)) None None (selector s) None None,
      (page_top Table ++ map st_message messages)%list), cache1).
Proof.
  intros Hs Hu E. unfold run_script, scrape_click. rewrite Hs, Hu, E.
  cbn [truthy_opt page_html truthy fst snd]. unfold render_results.
  cbn [results_df results_text table_list app]. now rewrite app_nil_r.
Qed.

(** A second call for an address gets what the first one left. *)
Lemma fetch_again (b b' : Browser) (cache : Cache) (address : string) :
  get_page_source b' (snd (get_page_source b cache address)) address =
    ((fst (fst (fst (get_page_source b cache address))),
      snd (fst (fst (get_page_source b cache address))), []),
     snd (get_page_source b cache address)).
Proof.
  destruct (cache !! address) as [[html messages]|] eqn:H.
  - rewrite (get_page_source_hit b cache address html messages H). cbn [fst snd].
    now apply get_page_source_hit.
  - rewrite (get_page_source_miss b cache address H). cbn [fst snd].
    destruct (get_page_source_uncached b address) as [[html messages] log]. cbn [fst snd].
    apply get_page_source_hit. apply lookup_insert_eq.
Qed.

(** X26: a failed scrape cannot be tried again.  After a press on Scrape
    Website whose fetch failed, a later press for the same address, in
    any session and with a browser in whatever state, is answered from
    the cache: the run shows the same page, the top and the same error,
    stores the empty page again and leaves the cache as it is. *)
Theorem X26_failed_scrape_is_replayed
    (b b' : Browser) (inp inp' : Inputs) (cache : Cache) (s s' : SessionState Table) :
  sound cache ->
  scrape_pressed inp = true -> truthy (url_input inp) = true ->
  snd (fst (fst (get_page_source b cache (url_input inp)))) <> [] ->
  scrape_pressed inp' = true -> url_input inp' = url_input inp ->
  run_all b' inp' (snd (run_all b inp cache s)) s' =
    ((mkState (Some "") (Some (url_input inp)) None None (selector s') None None,
      snd (run b inp cache s)),
     snd (run_all b inp cache s)).
Proof.
  intros Hc Hs Hu Herr Hs' Hu'.
  pose proof (fetch_again b b' cache (url_input inp)) as Hagain.
  destruct (fetch_error_empty b cache (url_input inp) Hc Herr) as (e & log & cache1 & E).
  rewrite E in Hagain. cbn [fst snd] in Hagain.
  rewrite (run_failed_scrape b inp cache cache1 s _ log Hs Hu E). cbn [fst snd].
  rewrite <- Hu' in Hagain, Hu.
  rewrite (run_failed_scrape b' inp' cache1 cache1 s' _ [] Hs' Hu Hagain).
  now rewrite Hu'.
Qed.

End ScriptProperties.

(** *** The further properties of the script on sample runs *)

Local Abbreviation sample_run_all :=
  (run_script Grid (read_html_raises Grid) select_links resolve_path grid_csv rows_csv).

Local Abbreviation sample_run b inp cache s := (fst (sample_run_all b inp cache s))
  (only parsing).

Local Abbreviation sample_click :=
  (extract_click Grid (read_html_raises Grid) select_links resolve_path).

Lemma X18_failed_fetch_disables_extraction_witness :
  exists e,
    sample_run (crashing_browser "boom") (mkInputs "https://ex.com/" true "" false) ∅
      (after_links Grid) =
      (mkState (Some "") (Some "https://ex.com/") None None (Some "a") None None,
       (page_top Grid ++
        [st_message (st_error ("An error occurred while scraping: " ++ e))])%list) /\
    (forall b' inp' cache', scrape_pressed inp' = false ->
       sample_run b' inp' cache'
         (fst (sample_run (crashing_browser "boom")
                 (mkInputs "https://ex.com/" true "" false) ∅ (after_links Grid))) =
       (fst (sample_run (crashing_browser "boom")
               (mkInputs "https://ex.com/" true "" false) ∅ (after_links Grid)),
        page_top Grid)) /\
    (forall d,
       sample_click d
         (fst (sample_run (crashing_browser "boom")
                 (mkInputs "https://ex.com/" true "" false) ∅ (after_links Grid))) =
       (fst (sample_run (crashing_browser "boom")
               (mkInputs "https://ex.com/" true "" false) ∅ (after_links Grid)), [])).
Proof.
  apply (X18_failed_fetch_disables_extraction Grid (read_html_raises Grid) select_links
           resolve_path grid_csv rows_csv (crashing_browser "boom")
           (mkInputs "https://ex.com/" true "" false) ∅ (after_links Grid));
    [apply sound_empty|reflexivity|reflexivity|vm_compute; discriminate].
Defined.


Lemma X20_text_results_page_witness :
  snd (sample_run (no_chrome "none") (mkInputs "" false "entire data" true) ∅
         (fetched Grid "https://ex.com/" links_page)) =
    (page_top Grid ++ extract_form Grid (fetched Grid "https://ex.com/" links_page) ++
     [st_markdown "---"; st_header "📊 Results";
      st_info (query_line (Some "entire data") (Some "body"))] ++
     [st_text_area "Extracted Text" (text_block (select_links links_page "body"));
      st_download_button "📥 Download as TXT" (text_block (select_links links_page "body"))
        "scraped_text.txt" None None])%list /\
  (Forall (fun el => get_text el "" true = "") (select_links links_page "body") ->
     text_block (select_links links_page "body") = "").
Proof.
  apply (X20_text_results_page Grid (read_html_raises Grid) select_links resolve_path
           grid_csv rows_csv (no_chrome "none") (mkInputs "" false "entire data" true) ∅
           (fetched Grid "https://ex.com/" links_page) links_page "body");
    reflexivity.
Defined.

(** Two small tables. *)
Local Abbreviation two_grids := [[["a"; "b"]; ["1"; "2"]]; [["c"]; ["3"]]] (only parsing).

Local Abbreviation tables_run :=
  (fst (run_script Grid (read_html_returns two_grids) select_links resolve_path grid_csv
          rows_csv (no_chrome "none") (mkInputs "" false "the table" true) ∅
          (fetched Grid "https://ex.com/" links_page))) (only parsing).

Lemma X21_tables_page_witness :
  (two_grids = [] ->
     snd tables_run =
       (page_top Grid ++ extract_form Grid (fetched Grid "https://ex.com/" links_page) ++
        [st_markdown "---"; st_header "📊 Results";
         st_info (query_line (Some "the table") (Some "table"))])%list) /\
  (two_grids <> [] ->
     snd tables_run =
       (page_top Grid ++ extract_form Grid (fetched Grid "https://ex.com/" links_page) ++
        [st_markdown "---"; st_header "📊 Results";
         st_info (query_line (Some "the table") (Some "table"))] ++
        st_markdown ("**Found " ++ str_nat (length two_grids) ++ " table(s).**") ::
        render_tables Grid grid_csv 0 two_grids)%list) /\
  keys (snd tables_run) =
    "description_input" ::
    map (fun i => "download_table_" ++ str_nat i) (seq 0 (length two_grids)) /\
  List.NoDup (keys (snd tables_run)) /\
  files (snd tables_run) =
    map (fun i => "table_" ++ str_nat (i + 1) ++ ".csv") (seq 0 (length two_grids)) /\
  List.NoDup (files (snd tables_run)) /\
  length (downloads (snd tables_run)) = length two_grids.
Proof.
  apply (X21_tables_page Grid (read_html_returns two_grids) select_links resolve_path
           grid_csv rows_csv (no_chrome "none") (mkInputs "" false "the table" true) ∅
           (fetched Grid "https://ex.com/" links_page) links_page two_grids);
    reflexivity.
Defined.

Lemma X22_failed_extraction_page_witness :
  (forall rt, description_to_selector "???" = (None, rt) ->
     sample_run (no_chrome "none") (mkInputs "" false "???" true) ∅ (after_links Grid) =
       (mkState (Some links_page) (Some "https://ex.com/") None None (Some "a") None
          (Some "???"),
        (page_top Grid ++ extract_form Grid (after_links Grid) ++
         [st_message (st_error "Could not understand your description.")])%list)) /\
  (forall e, contains "table" (normal "???") = true ->
     read_html_raises Grid links_page = inl e ->
     sample_run (no_chrome "none") (mkInputs "" false "???" true) ∅ (after_links Grid) =
       (mkState (Some links_page) (Some "https://ex.com/") None None (Some "table") None
          (Some "???"),
        (page_top Grid ++ extract_form Grid (after_links Grid) ++
         [st_message (st_error ("Could not parse tables. Error: " ++ e))])%list)).
Proof.
  apply (X22_failed_extraction_page Grid (read_html_raises Grid) select_links resolve_path
           grid_csv rows_csv (no_chrome "none") (mkInputs "" false "???" true) ∅
           (after_links Grid) links_page);
    reflexivity.
Defined.

Lemma X23_results_relabelled_witness :
  results_df (fst (sample_run (no_chrome "none") (mkInputs "" false "all images" false) ∅
                     (after_links Grid))) = results_df (after_links Grid) /\
  results_text (fst (sample_run (no_chrome "none") (mkInputs "" false "all images" false) ∅
                       (after_links Grid))) = results_text (after_links Grid) /\
  table_list (fst (sample_run (no_chrome "none") (mkInputs "" false "all images" false) ∅
                     (after_links Grid))) = table_list (after_links Grid) /\
  selector (fst (sample_run (no_chrome "none") (mkInputs "" false "all images" false) ∅
                   (after_links Grid))) = selector (after_links Grid) /\
  description (fst (sample_run (no_chrome "none") (mkInputs "" false "all images" false) ∅
                      (after_links Grid))) = Some "all images" /\
  In (st_info (query_line (Some "all images") (selector (after_links Grid))))
     (snd (sample_run (no_chrome "none") (mkInputs "" false "all images" false) ∅
             (after_links Grid))).
Proof.
  apply (X23_results_relabelled Grid (read_html_raises Grid) select_links resolve_path
           grid_csv rows_csv (no_chrome "none") (mkInputs "" false "all images" false) ∅
           (after_links Grid) links_page);
    [reflexivity|reflexivity|reflexivity|left; reflexivity|vm_compute; lia].
Defined.

Lemma X24_scrape_run_witness :
  fst (sample_run (steady_browser heights_settle links_page)
         (mkInputs "https://ex.com/" true "" false) ∅ (after_links Grid)) =
    mkState
      (Some (fst (fst (fst (get_page_source (steady_browser heights_settle links_page) ∅
                              "https://ex.com/")))))
      (Some "https://ex.com/") None None (selector (after_links Grid)) None (Some "") /\
  snd (sample_run (steady_browser heights_settle links_page)
         (mkInputs "https://ex.com/" true "" false) ∅ (after_links Grid)) =
    (page_top Grid ++
     extract_form Grid
       (fst (sample_run (steady_browser heights_settle links_page)
               (mkInputs "https://ex.com/" true "" false) ∅ (after_links Grid))))%list.
Proof.
  apply (X24_scrape_run Grid (read_html_raises Grid) select_links resolve_path
           grid_csv rows_csv (steady_browser heights_settle links_page)
           (mkInputs "https://ex.com/" true "" false) ∅ (after_links Grid));
    [apply sound_empty|reflexivity|reflexivity|reflexivity|reflexivity].
Defined.

(** The second press, with a browser that works, after the first one
    failed with a browser that crashed. *)
Lemma X26_failed_scrape_is_replayed_witness :
  sample_run_all (steady_browser heights_settle links_page)
    (mkInputs "https://ex.com/" true "" false)
    (snd (sample_run_all (crashing_browser "boom")
            (mkInputs "https://ex.com/" true "" false) ∅ (after_links Grid)))
    (initial_state Grid) =
  ((mkState (Some "") (Some "https://ex.com/") None None (selector (initial_state Grid))
      None None,
    snd (sample_run (crashing_browser "boom")
           (mkInputs "https://ex.com/" true "" false) ∅ (after_links Grid))),
   snd (sample_run_all (crashing_browser "boom")
          (mkInputs "https://ex.com/" true "" false) ∅ (after_links Grid))).
Proof.
  apply (X26_failed_scrape_is_replayed Grid (read_html_raises Grid) select_links
           resolve_path grid_csv rows_csv (crashing_browser "boom")
           (steady_browser heights_settle links_page)
           (mkInputs "https://ex.com/" true "" false)
           (mkInputs "https://ex.com/" true "" false) ∅ (after_links Grid)
           (initial_state Grid));
    [apply sound_empty|reflexivity|reflexivity|vm_compute; discriminate
    |reflexivity|reflexivity].
Defined.

(** The stale label on the page: the links extracted for [all links] shown
    under the description [all images]. *)
Example links_shown_as_images :
  In (st_info "Query: `all images` | Method: `a`")
     (snd (sample_run (no_chrome "none") (mkInputs "" false "all images" false) ∅
             (after_links Grid))) /\
  In (st_dataframe ["https://ex.com/a"; "https://ex.com/x"])
     (snd (sample_run (no_chrome "none") (mkInputs "" false "all images" false) ∅
             (after_links Grid))).
Proof. vm_compute. split; repeat (first [left; reflexivity | right]). Qed.
